(** * The chat page of the AI coding assistant

    A shallow embedding of [ui/chat_page.py]: the Streamlit session
    variables, the four-stage conversation flow of [process_user_input],
    the plan produced by [generate_technical_plan] and the archive written
    by [generate_code_from_plan].

    The orchestration engine ([run_chat_planning_agent],
    [execute_chat_based_planning_pipeline]), the clock, the outcome of
    opening a file and the wording of library messages are inputs of the
    model: an [env] gives, for one run, what each of them answers. *)

From Stdlib Require Import Ascii Arith Lia.
From stdpp Require Import gmap strings.

(** ** The pieces of the Python runtime the page relies on *)

Module Py.

(** An exception object. [Exception] stands for the instances of the
    class [Exception], by class name and [str(e)]; [BaseException] for
    those outside it ([asyncio.CancelledError], [KeyboardInterrupt],
    [SystemExit]), which [except Exception] does not catch. The last three
    are raised by libraries: Streamlit's [AttributeError] for a key that is
    not in [st.session_state], the [FileNotFoundError] of [open], and the
    [RerunException] by which [st.rerun()] ends the script run. *)
Inductive exn :=
| Exception (exn_class text : string)
| BaseException (exn_class text : string)
| AttributeError (key : string)
| FileNotFoundError (path : string)
| RerunException.

(** [isinstance(e, Exception)] *)
Definition is_Exception (e : exn) : bool :=
  match e with
  | BaseException _ _ | RerunException => false
  | Exception _ _ | AttributeError _ | FileNotFoundError _ => true
  end.

(** What evaluating a call gives: a value, or a raised exception. *)
Inductive outcome (A : Type) : Type :=
| Returns (a : A)
| Raises (e : exn).
Global Arguments Returns {A} a.
Global Arguments Raises {A} e.

(** A [str] is modelled by its UTF-8 encoding, a [string] of bytes. A
    character is a byte that is no continuation byte, together with the
    continuation bytes that follow it. *)
Definition is_continuation (c : ascii) : bool :=
  let n := nat_of_ascii c in (128 <=? n) && (n <? 192).

(** [len(s)]: the number of characters. *)
Fixpoint len (s : string) : nat :=
  match s with
  | EmptyString => 0
  | String c s' => if is_continuation c then len s' else S (len s')
  end.

(** [s[:n]]: the first [n] characters. *)
Fixpoint slice_chars (n : nat) (s : string) : string :=
  match s with
  | EmptyString => EmptyString
  | String c s' =>
      if is_continuation c then String c (slice_chars n s')
      else match n with
           | 0 => EmptyString
           | S n' => String c (slice_chars n' s')
           end
  end.

(** [str.isspace] on one character, by the bytes of its encoding. One
    byte: U+0009 to U+000D, U+001C to U+0020. Two bytes: U+0085 and
    U+00A0. Three bytes: U+1680, U+2000 to U+200A, U+2028, U+2029,
    U+202F, U+205F and U+3000. *)
Definition isspace1 (c : ascii) : bool :=
  let n := nat_of_ascii c in
  ((9 <=? n) && (n <=? 13)) || ((28 <=? n) && (n <=? 32)).

Definition isspace2 (c1 c2 : ascii) : bool :=
  let n2 := nat_of_ascii c2 in
  (nat_of_ascii c1 =? 194) && ((n2 =? 133) || (n2 =? 160)).

Definition isspace3 (c1 c2 c3 : ascii) : bool :=
  let n1 := nat_of_ascii c1 in
  let n2 := nat_of_ascii c2 in
  let n3 := nat_of_ascii c3 in
  ((n1 =? 225) && (n2 =? 154) && (n3 =? 128))
  || ((n1 =? 226) && (n2 =? 128)
      && (((128 <=? n3) && (n3 <=? 138))
          || (n3 =? 168) || (n3 =? 169) || (n3 =? 175)))
  || ((n1 =? 226) && (n2 =? 129) && (n3 =? 159))
  || ((n1 =? 227) && (n2 =? 128) && (n3 =? 128)).

(** [s.lstrip()] *)
Fixpoint lstrip (s : string) : string :=
  match s with
  | EmptyString => EmptyString
  | String c1 s1 =>
      if isspace1 c1 then lstrip s1
      else
        match s1 with
        | EmptyString => s
        | String c2 s2 =>
            if isspace2 c1 c2 then lstrip s2
            else
              match s2 with
              | EmptyString => s
              | String c3 s3 => if isspace3 c1 c2 c3 then lstrip s3 else s
              end
        end
  end.

(** [s.rstrip()]: what is left once the longest end made of whitespace
    only is taken away. *)
Fixpoint rstrip (s : string) : string :=
  match s with
  | EmptyString => EmptyString
  | String c s' =>
      match lstrip s with
      | EmptyString => EmptyString
      | String _ _ => String c (rstrip s')
      end
  end.

(** [s.strip()] *)
Definition strip (s : string) : string := rstrip (lstrip s).

(** [s.isascii()] *)
Fixpoint isascii (s : string) : bool :=
  match s with
  | EmptyString => true
  | String c s' => (nat_of_ascii c <? 128) && isascii s'
  end.

Definition lower_ascii (c : ascii) : ascii :=
  let n := nat_of_ascii c in
  if (65 <=? n) && (n <=? 90) then ascii_of_nat (n + 32) else c.

Fixpoint map_chars (f : ascii -> ascii) (s : string) : string :=
  match s with
  | EmptyString => EmptyString
  | String c s' => String (f c) (map_chars f s')
  end.

(** [s.lower()]. On a text of ASCII characters the letters A to Z move
    to a to z; the lower case of any other text is what the Unicode
    tables of the running Python give, [unicode_lower]. *)
Definition lower (unicode_lower : string -> string) (s : string) : string :=
  if isascii s then map_chars lower_ascii s else unicode_lower s.

(** The first [n] bytes of an encoding: [p[:i]] for an offset [i] that
    was counted in bytes, as the path functions below do. *)
Fixpoint slice_to (n : nat) (s : string) : string :=
  match n, s with
  | S n', String c s' => String c (slice_to n' s')
  | _, _ => EmptyString
  end.

(** Truth value of a [str]. *)
Definition truthy (s : string) : bool :=
  match s with EmptyString => false | String _ _ => true end.

(** [v or d] for [v] a [str] or [None]. *)
Definition or_else (v : option string) (d : string) : string :=
  match v with
  | Some s => if truthy s then s else d
  | None => d
  end.

Definition startswith_sep (s : string) : bool :=
  match s with String "/" _ => true | _ => false end.

Fixpoint endswith_sep (s : string) : bool :=
  match s with
  | EmptyString => false
  | String c EmptyString => Ascii.eqb c "/"
  | String _ s' => endswith_sep s'
  end.

(** [os.path.join(a, b)] of [posixpath]. *)
Definition os_path_join (a b : string) : string :=
  if startswith_sep b then b
  else if negb (truthy a) || endswith_sep a then a +:+ b
  else a +:+ "/" +:+ b.

(** [datetime.now()], and [strftime] for the one format the page
    uses, [%Y%m%d_%H%M%S] (years of four digits). *)
Record datetime := {
  year : nat; month : nat; day : nat;
  hour : nat; minute : nat; second : nat
}.

Definition digit (d : nat) : ascii := ascii_of_nat (48 + d mod 10).

Definition two_digits (n : nat) : string :=
  String (digit (n / 10)) (String (digit n) EmptyString).

Definition strftime_Ymd_HMS (d : datetime) : string :=
  two_digits (year d / 100) +:+ two_digits (year d) +:+ two_digits (month d)
  +:+ two_digits (day d) +:+ "_" +:+ two_digits (hour d)
  +:+ two_digits (minute d) +:+ two_digits (second d).

End Py.
Export Py.

(** ** Session, files and the engine *)

(** One entry of [st.session_state.messages]: the dict
    [{"role": role, "content": content}]. *)
Record message := Message { role : string; content : string }.

(** [st.session_state], restricted to the keys the page touches. A key
    that is not in the session is [None]; [current_plan] and
    [generated_code_path] hold a [str] or Python's [None], so a present
    key holding [None] is [Some None]. *)
Record SessionState := {
  messages : option (list message);
  current_plan : option (option string);
  code_generated : option bool;
  generated_code_path : option (option string);
  chat_stage : option string;
  assistant_typing : option bool;
  processing : option bool
}.

Definition set_messages (v : list message) (ss : SessionState) : SessionState :=
  {| messages := Some v; current_plan := current_plan ss;
     code_generated := code_generated ss;
     generated_code_path := generated_code_path ss;
     chat_stage := chat_stage ss; assistant_typing := assistant_typing ss;
     processing := processing ss |}.

Definition set_current_plan (v : option string) (ss : SessionState) : SessionState :=
  {| messages := messages ss; current_plan := Some v;
     code_generated := code_generated ss;
     generated_code_path := generated_code_path ss;
     chat_stage := chat_stage ss; assistant_typing := assistant_typing ss;
     processing := processing ss |}.

Definition set_code_generated (v : bool) (ss : SessionState) : SessionState :=
  {| messages := messages ss; current_plan := current_plan ss;
     code_generated := Some v;
     generated_code_path := generated_code_path ss;
     chat_stage := chat_stage ss; assistant_typing := assistant_typing ss;
     processing := processing ss |}.

Definition set_generated_code_path (v : option string) (ss : SessionState)
  : SessionState :=
  {| messages := messages ss; current_plan := current_plan ss;
     code_generated := code_generated ss;
     generated_code_path := Some v;
     chat_stage := chat_stage ss; assistant_typing := assistant_typing ss;
     processing := processing ss |}.

Definition set_chat_stage (v : string) (ss : SessionState) : SessionState :=
  {| messages := messages ss; current_plan := current_plan ss;
     code_generated := code_generated ss;
     generated_code_path := generated_code_path ss;
     chat_stage := Some v; assistant_typing := assistant_typing ss;
     processing := processing ss |}.

Definition set_assistant_typing (v : bool) (ss : SessionState) : SessionState :=
  {| messages := messages ss; current_plan := current_plan ss;
     code_generated := code_generated ss;
     generated_code_path := generated_code_path ss;
     chat_stage := chat_stage ss; assistant_typing := Some v;
     processing := processing ss |}.

Definition set_processing (v : bool) (ss : SessionState) : SessionState :=
  {| messages := messages ss; current_plan := current_plan ss;
     code_generated := code_generated ss;
     generated_code_path := generated_code_path ss;
     chat_stage := chat_stage ss; assistant_typing := assistant_typing ss;
     processing := Some v |}.

(** The session of a browser that has just connected: no key is set. *)
Definition empty_session : SessionState :=
  {| messages := None; current_plan := None; code_generated := None;
     generated_code_path := None; chat_stage := None;
     assistant_typing := None; processing := None |}.

(** A zip archive, by the entries written to it, in order: member name
    and uncompressed content. *)
Definition archive : Type := list (string * string).

(** [zip_file.writestr(filename, content)] *)
Definition writestr (z : archive) (filename content : string) : archive :=
  z ++ [(filename, content)].

(** The value [execute_chat_based_planning_pipeline] gives back; the
    page never inspects it. *)
Inductive pipeline_result := PipelineResult (repr : string).

(** The two calls the page makes into the orchestration engine. A call
    is recorded when its call expression is evaluated; for the pipeline
    that makes the coroutine, which [asyncio.run] then runs or, with an
    event loop running, refuses. *)
Inductive engine_call :=
| Call_run_chat_planning_agent (user_requirements : string)
| Call_execute_chat_based_planning_pipeline (user_input : string)
    (enable_indexing : bool).

(** Everything a run of the page can change: the session, the files
    under [/tmp] (path to archive stored there), and the calls made into
    the engine so far, oldest first. *)
Record world := World {
  session_state : SessionState;
  files : gmap string archive;
  engine_calls : list engine_call
}.

Definition with_session (ss : SessionState) (w : world) : world :=
  {| session_state := ss; files := files w; engine_calls := engine_calls w |}.

Definition with_files (fs : gmap string archive) (w : world) : world :=
  {| session_state := session_state w; files := fs;
     engine_calls := engine_calls w |}.

Definition with_engine_calls (cs : list engine_call) (w : world) : world :=
  {| session_state := session_state w; files := files w; engine_calls := cs |}.

(** What the surroundings answer during one run. The engine functions
    give the outcome of the whole call expression as the page writes it:
    [await run_chat_planning_agent(...)], and
    [asyncio.run(execute_chat_based_planning_pipeline(...))] in a thread
    where no event loop is running. [open_wb path] is the exception
    raised by storing a file at [path], if any. [unicode_lower] is
    [str.lower] on texts that are not ASCII, and [message_of] the
    [str(e)] of the exceptions libraries raise, whose wording belongs to
    the library. *)
Record env := {
  run_chat_planning_agent : string -> outcome string;
  execute_chat_based_planning_pipeline : string -> outcome pipeline_result;
  datetime_now : datetime;
  open_wb : string -> option exn;
  unicode_lower : string -> string;
  message_of : exn -> string
}.

(** [str(e)] *)
Definition str (E : env) (e : exn) : string :=
  match e with
  | Exception _ text | BaseException _ text => text
  | AttributeError _ | FileNotFoundError _ | RerunException => message_of E e
  end.

(** What [asyncio.run] raises when it is called while an event loop is
    running. The engine's pipeline is a coroutine function: the call
    handed to [asyncio.run] makes a coroutine, which is then not
    started. *)
Definition RuntimeError_running_loop : exn :=
  Exception "RuntimeError"
    "asyncio.run() cannot be called from a running event loop".

(** The surroundings as seen from inside a coroutine that an event loop
    runs: there [asyncio.run(...)] raises, whatever it is given. *)
Definition in_running_loop (E : env) : env :=
  {| run_chat_planning_agent := run_chat_planning_agent E;
     execute_chat_based_planning_pipeline :=
       fun _ => Raises RuntimeError_running_loop;
     datetime_now := datetime_now E;
     open_wb := open_wb E;
     unicode_lower := unicode_lower E;
     message_of := message_of E |}.

(** ** Stateful code that may raise *)

Definition M (A : Type) : Type := world -> world * outcome A.

Definition ret {A} (a : A) : M A := fun w => (w, Returns a).

Definition raise {A} (e : exn) : M A := fun w => (w, Raises e).

Definition bind {A B} (m : M A) (k : A -> M B) : M B :=
  fun w =>
    match m w with
    | (w', Returns a) => k a w'
    | (w', Raises e) => (w', Raises e)
    end.

Notation "x <- m ;; k" := (bind m (fun x => k))
  (at level 100, m at next level, right associativity).
Notation "m ;; k" := (bind m (fun _ => k))
  (at level 100, right associativity).

(** [try: body / except Exception as e: handler e]: an exception that
    is no instance of [Exception] goes on to the caller. *)
Definition try_except {A} (body : M A) (handler : exn -> M A) : M A :=
  fun w =>
    match body w with
    | (w', Returns a) => (w', Returns a)
    | (w', Raises e) =>
        if is_Exception e then handler e w' else (w', Raises e)
    end.

(** [try: body / finally: final]: [final] runs on both exits, and an
    exception of its own replaces the result. *)
Definition try_finally {A} (body : M A) (final : M unit) : M A :=
  fun w =>
    match body w with
    | (w', r) =>
        match final w' with
        | (w'', Returns _) => (w'', r)
        | (w'', Raises e) => (w'', Raises e)
        end
    end.

(** [st.session_state.<name>], which raises when the key is not set. *)
Definition getattr {A} (field : SessionState -> option A) (name : string) : M A :=
  fun w =>
    match field (session_state w) with
    | Some v => (w, Returns v)
    | None => (w, Raises (AttributeError name))
    end.

(** [st.session_state.<name> = v] *)
Definition setattr (update : SessionState -> SessionState) : M unit :=
  fun w => (with_session (update (session_state w)) w, Returns tt).

(** [if "<name>" not in st.session_state: body] *)
Definition if_not_in {A} (field : SessionState -> option A) (body : M unit)
  : M unit :=
  fun w =>
    match field (session_state w) with
    | None => body w
    | Some _ => (w, Returns tt)
    end.

(** A call into the engine: it is recorded, and gives what the
    surroundings answer. *)
Definition call_engine {A} (c : engine_call) (answer : outcome A) : M A :=
  fun w => (with_engine_calls (engine_calls w ++ [c]) w, answer).

(** [with open(path, "wb") as f: f.write(data)]: a file already at
    [path] is replaced. *)
Definition write_file (E : env) (path : string) (data : archive) : M unit :=
  fun w =>
    match open_wb E path with
    | Some e => (w, Raises e)
    | None => (with_files (<[path := data]> (files w)) w, Returns tt)
    end.

(** [with open(path, "rb") as f: ...] *)
Definition open_rb (path : string) : M archive :=
  fun w =>
    match files w !! path with
    | Some data => (w, Returns data)
    | None => (w, Raises (FileNotFoundError path))
    end.

(** ** The texts of the page

    They are the bytes of the source file, which is written in UTF-8. *)

Definition dq : string := String (ascii_of_nat 34) EmptyString.
Definition dq3 : string := dq +:+ dq +:+ dq.

Definition get_assistant_greeting : string :=
  "👋 Hello! I'm your specialized AI coding assistant. I'm here to help you generate code through an interactive conversation.

Please tell me what kind of project or functionality you'd like to build. The more details you provide, the better I can understand your requirements.

For example, you could describe:
- A web application with specific features
- A machine learning model implementation
- A data processing pipeline
- A mobile app concept
- Any other coding project you have in mind

I'll ask follow-up questions if I need clarification, and then create a technical implementation plan for you. When we're ready, I'll generate the actual code!".

Definition greeting_reply : string :=
  "Thanks for that introduction! Let me ask a few questions to better understand your requirements.".

Definition more_details_reply : string :=
  "I'd like to understand your requirements better. Could you provide more details about what you're looking to build?".

Definition type_code_reminder : string :=
  "I'm still collecting requirements. When you're ready to generate code based on the plan, please type `/code`.".

Definition follow_up_reply : string :=
  "I've generated the code based on your requirements. You can download it using the link provided above. Is there anything else you'd like me to help with?".

Definition plan_header : string :=
  "✅ Thanks for the detailed requirements! I've analyzed what you're looking to build and here's my technical implementation plan:

## Technical Implementation Plan

".

Definition plan_footer : string :=
  "

When you're ready to generate the actual code based on this plan, simply type `/code` and I'll create the implementation for you!".

Definition fallback_plan_header : string :=
  "✅ Thanks for the detailed requirements! I've analyzed what you're looking to build and here's my technical implementation plan:

## Technical Implementation Plan

**Project Overview:**
".

Definition fallback_plan_footer : string :=
  "...

**Implementation Approach:**
1. **Architecture Design** - Define system components and data flow
2. **Technology Stack** - Select appropriate frameworks and libraries
3. **Core Modules** - Break down functionality into manageable components
4. **API Design** - Define interfaces and data structures
5. **Testing Strategy** - Plan for quality assurance

**File Structure:**
```
project/
├── src/
│   ├── main.py
│   ├── config/
│   ├── utils/
│   └── modules/
├── tests/
├── requirements.txt
└── README.md
```

When you're ready to generate the actual code based on this plan, simply type `/code` and I'll create the implementation for you!".

Definition default_requirements : string :=
  "Generate code based on the technical plan".

Definition readme_header : string :=
  "# Generated Project

This project was automatically generated based on your requirements:

## Requirements
".

Definition readme_footer : string :=
  "...

## File Structure
- `main.py`: Entry point
- `requirements.txt`: Dependencies
- `src/`: Source code directory
".

Definition requirements_txt : string :=
  "streamlit>=1.28.0
numpy>=1.21.0
pandas>=1.3.0
".

Definition main_py : string :=
  "#!/usr/bin/env python3
"
    +:+ dq3
    +:+ "
Main application entry point
"
    +:+ dq3
    +:+ "

import streamlit as st

def main():
    st.title("
    +:+ dq
    +:+ "Generated Application"
    +:+ dq
    +:+ ")
    st.write("
    +:+ dq
    +:+ "This application was automatically generated!"
    +:+ dq
    +:+ ")
    
    # TODO: Implement your functionality here
    
if __name__ == "
    +:+ dq
    +:+ "__main__"
    +:+ dq
    +:+ ":
    main()
".

Definition code_generated_response : string :=
  "🎉 Great! I've generated the code based on your requirements and technical plan.

## What was created:
- A complete project structure with best practices
- Main application file with basic implementation
- Requirements file with necessary dependencies
- README with project documentation

## Download your code:
".

Definition apology_prefix : string :=
  "❌ Sorry, I encountered an error while generating the code: ".

(** ** The page *)

Section ChatPage.

(** [initialize_session_state] of [ui/handlers.py], which the chat page
    calls first, is not part of the sources at hand: it is a parameter,
    an update of the session. *)
Variable initialize_session_state : SessionState -> SessionState.

Definition initialize_chat_session_state : M unit :=
  setattr initialize_session_state ;;
  if_not_in messages (setattr (set_messages [])) ;;
  if_not_in current_plan (setattr (set_current_plan None)) ;;
  if_not_in code_generated (setattr (set_code_generated false)) ;;
  if_not_in generated_code_path (setattr (set_generated_code_path None)) ;;
  if_not_in chat_stage (setattr (set_chat_stage "greeting")).

Definition add_message (role content : string) : M unit :=
  msgs <- getattr messages "messages" ;;
  setattr (set_messages (msgs ++ [Message role content])).

(** The plan shown when the planning agent answered [plan_result]. *)
Definition format_plan (plan_result : string) : string :=
  plan_header +:+ plan_result +:+ plan_footer.

(** The plan shown when the planning agent raised. *)
Definition fallback_plan (user_requirements : string) : string :=
  fallback_plan_header +:+ slice_chars 100 user_requirements
  +:+ fallback_plan_footer.

Definition generate_technical_plan (E : env) (user_requirements : string)
  : M string :=
  try_except
    (plan_result <-
       call_engine (Call_run_chat_planning_agent user_requirements)
         (run_chat_planning_agent E user_requirements) ;;
     let plan := format_plan plan_result in
     setattr (set_current_plan (Some plan)) ;;
     ret plan)
    (fun e =>
       let plan := fallback_plan user_requirements in
       setattr (set_current_plan (Some plan)) ;;
       ret plan).

Definition readme_md (user_requirements : string) : string :=
  readme_header +:+ slice_chars 200 user_requirements +:+ readme_footer.

(** The dict [project_files], in insertion order. *)
Definition project_files (user_requirements : string)
  : list (string * string) :=
  [ ("README.md", readme_md user_requirements);
    ("requirements.txt", requirements_txt);
    ("main.py", main_py) ].

Definition zip_path_at (d : datetime) : string :=
  let timestamp := strftime_Ymd_HMS d in
  let zip_filename := "generated_code_" +:+ timestamp +:+ ".zip" in
  os_path_join "/tmp" zip_filename.

Definition apology (E : env) (e : exn) : string :=
  apology_prefix +:+ str E e.

Definition generate_code_from_plan (E : env) : M string :=
  try_finally
    (try_except
       (setattr (set_processing true) ;;
        plan <- getattr current_plan "current_plan" ;;
        let user_requirements := or_else plan default_requirements in
        result <-
          call_engine
            (Call_execute_chat_based_planning_pipeline user_requirements true)
            (execute_chat_based_planning_pipeline E user_requirements) ;;
        let zip_buffer :=
          foldl (fun z item => writestr z item.1 item.2) []
            (project_files user_requirements) in
        let zip_path := zip_path_at (datetime_now E) in
        write_file E zip_path zip_buffer ;;
        setattr (set_generated_code_path (Some zip_path)) ;;
        setattr (set_code_generated true) ;;
        ret code_generated_response)
       (fun e => ret (apology E e)))
    (setattr (set_processing false)).

(** [process_user_input]. The chain of [elif] reads the stage again at
    each test; nothing changes it in between, so it is read once. Being a
    coroutine function, its body runs inside the event loop of the
    [asyncio.run] call of [render_chat_interface], so the [asyncio.run] of
    [generate_code_from_plan] is met with a loop running. *)
Definition process_user_input (E : env) (user_input : string) : M unit :=
  add_message "user" user_input ;;
  setattr (set_assistant_typing true) ;;
  stage <- getattr chat_stage "chat_stage" ;;
  (if String.eqb stage "greeting" then
     setattr (set_chat_stage "collecting_requirements") ;;
     add_message "assistant" greeting_reply
   else if String.eqb stage "collecting_requirements" then
     if 50 <? len user_input then
       plan_response <- generate_technical_plan E user_input ;;
       add_message "assistant" plan_response ;;
       setattr (set_chat_stage "planning")
     else
       add_message "assistant" more_details_reply
   else if String.eqb stage "planning" then
     if String.eqb (lower (unicode_lower E) (strip user_input)) "/code" then
       code_response <- generate_code_from_plan (in_running_loop E) ;;
       add_message "assistant" code_response ;;
       setattr (set_chat_stage "generating")
     else
       add_message "assistant" type_code_reminder
   else if String.eqb stage "generating" then
     add_message "assistant" follow_up_reply
   else ret tt) ;;
  setattr (set_assistant_typing false).

(** The form of [render_chat_interface] after one script run: whether
    Send was pressed, and the text of the text area. *)
Record form := { submit_button : bool; user_input_area : string }.

(** [render_chat_interface]: what it reads of the session, in the
    order of the source (the messages for [display_chat_messages], flag
    and path for the download button, the stage for the command hint),
    each read raising when the key is not set, and what it does. What it
    draws is [render_chat_view] below. After a submitted turn
    [st.rerun()] ends the script run by raising. *)
Definition render_chat_interface (E : env) (f : form) : M unit :=
  getattr messages "messages" ;;
  generated <- getattr code_generated "code_generated" ;;
  (if generated then
     path <- getattr generated_code_path "generated_code_path" ;;
     match path with
     | Some p => if truthy p then (open_rb p ;; ret tt) else ret tt
     | None => ret tt
     end
   else ret tt) ;;
  getattr chat_stage "chat_stage" ;;
  if submit_button f && truthy (user_input_area f)
  then process_user_input E (user_input_area f) ;; raise RerunException
  else ret tt.

(** The greeting of the first visit, in [chat_main_layout]. *)
Definition show_initial_greeting : M unit :=
  msgs <- getattr messages "messages" ;;
  match msgs with
  | [] => add_message "assistant" get_assistant_greeting
  | _ :: _ => ret tt
  end.

(** One run of the page script. Page configuration, styles, header,
    sidebar and footer only draw. *)
Definition chat_main_layout (E : env) (f : form) : M unit :=
  initialize_chat_session_state ;;
  show_initial_greeting ;;
  render_chat_interface E f.

End ChatPage.

(** ** The conversation as a transition system *)

(** The stages, in the order the conversation goes through them. *)
Definition stages : list string :=
  ["greeting"; "collecting_requirements"; "planning"; "generating"].

Inductive stage_next : string -> string -> Prop :=
| next_greeting : stage_next "greeting" "collecting_requirements"
| next_collecting : stage_next "collecting_requirements" "planning"
| next_planning : stage_next "planning" "generating".

(** The keys of the session that belong to the chat page. *)
Definition chat_keys (ss : SessionState) :=
  (messages ss, current_plan ss, code_generated ss, generated_code_path ss,
   chat_stage ss).

(** The handler [initialize_session_state] is taken to leave the keys of
    the chat page as they are. *)
Definition keeps_chat_keys (f : SessionState -> SessionState) : Prop :=
  forall ss, chat_keys (f ss) = chat_keys ss.

(** The worlds the page can be in between two operations: a browser
    connects with an empty session, whatever lies under [/tmp], and the
    script runs [initialize_chat_session_state]; from then on it runs the
    initialisation again, shows the greeting, or processes an input.
    [/tmp] is shared: at any time other sessions and other processes
    store, replace and remove files there. *)
Inductive reachable (init : SessionState -> SessionState) : world -> Prop :=
| reachable_first_visit fs :
    reachable init
      (initialize_chat_session_state init (World empty_session fs [])).1
| reachable_files_changed w fs :
    reachable init w ->
    reachable init (with_files fs w)
| reachable_rerun w :
    reachable init w ->
    reachable init (initialize_chat_session_state init w).1
| reachable_greeting w :
    reachable init w ->
    reachable init (show_initial_greeting w).1
| reachable_turn w E user_input :
    reachable init w ->
    reachable init (process_user_input E user_input w).1.

(** What holds of the session in every reachable world. *)
Record session_ok (ss : SessionState) : Prop := {
  ok_messages : is_Some (messages ss);
  ok_stage : exists s, chat_stage ss = Some s /\ s ∈ stages;
  ok_plan_key : is_Some (current_plan ss);
  ok_plan :
    chat_stage ss = Some "planning" \/ chat_stage ss = Some "generating" ->
    exists p, current_plan ss = Some (Some p);
  ok_code :
    (code_generated ss = Some false /\ generated_code_path ss = Some None) \/
    (code_generated ss = Some true /\
     exists p, generated_code_path ss = Some (Some p))
}.

Definition keeps_plan (w w' : world) : Prop :=
  current_plan (session_state w') = current_plan (session_state w).

Definition keeps_code (w w' : world) : Prop :=
  code_generated (session_state w') = code_generated (session_state w) /\
  generated_code_path (session_state w') = generated_code_path (session_state w) /\
  files w' = files w.

Definition keeps_stage (w w' : world) : Prop :=
  chat_stage (session_state w') = chat_stage (session_state w).

(** The turn put the user's text and then [reply] at the end of the
    message list. *)
Definition appended (w w' : world) (user_input reply : string) : Prop :=
  exists msgs,
    messages (session_state w) = Some msgs /\
    messages (session_state w') =
      Some (msgs ++ [Message "user" user_input; Message "assistant" reply]).

(** The text handed to the pipeline in world [w]. *)
Definition requirements_of (w : world) : string :=
  match current_plan (session_state w) with
  | Some plan => or_else plan default_requirements
  | None => default_requirements
  end.

(** The turn put the user's text at the end of the message list, and no
    reply. *)
Definition appended_user (w w' : world) (user_input : string) : Prop :=
  exists msgs,
    messages (session_state w) = Some msgs /\
    messages (session_state w') = Some (msgs ++ [Message "user" user_input]).

(** One call of [process_user_input], branch by branch, with the way it
    ends. *)
Inductive turn (E : env) (user_input : string) (w w' : world)
  : outcome unit -> Prop :=
| turn_greeting :
    chat_stage (session_state w) = Some "greeting" ->
    chat_stage (session_state w') = Some "collecting_requirements" ->
    keeps_plan w w' -> keeps_code w w' ->
    engine_calls w' = engine_calls w ->
    appended w w' user_input greeting_reply ->
    turn E user_input w w' (Returns tt)
| turn_more_details :
    chat_stage (session_state w) = Some "collecting_requirements" ->
    len user_input <= 50 ->
    keeps_stage w w' -> keeps_plan w w' -> keeps_code w w' ->
    engine_calls w' = engine_calls w ->
    appended w w' user_input more_details_reply ->
    turn E user_input w w' (Returns tt)
| turn_plan plan :
    chat_stage (session_state w) = Some "collecting_requirements" ->
    50 < len user_input ->
    chat_stage (session_state w') = Some "planning" ->
    (forall e, run_chat_planning_agent E user_input = Raises e ->
               is_Exception e = true) ->
    plan = match run_chat_planning_agent E user_input with
           | Returns plan_result => format_plan plan_result
           | Raises _ => fallback_plan user_input
           end ->
    current_plan (session_state w') = Some (Some plan) ->
    keeps_code w w' ->
    engine_calls w' =
      engine_calls w ++ [Call_run_chat_planning_agent user_input] ->
    appended w w' user_input plan ->
    turn E user_input w w' (Returns tt)
| turn_plan_interrupted e :
    chat_stage (session_state w) = Some "collecting_requirements" ->
    50 < len user_input ->
    run_chat_planning_agent E user_input = Raises e ->
    is_Exception e = false ->
    keeps_stage w w' -> keeps_plan w w' -> keeps_code w w' ->
    engine_calls w' =
      engine_calls w ++ [Call_run_chat_planning_agent user_input] ->
    appended_user w w' user_input ->
    turn E user_input w w' (Raises e)
| turn_reminder :
    chat_stage (session_state w) = Some "planning" ->
    lower (unicode_lower E) (strip user_input) <> "/code" ->
    keeps_stage w w' -> keeps_plan w w' -> keeps_code w w' ->
    engine_calls w' = engine_calls w ->
    appended w w' user_input type_code_reminder ->
    turn E user_input w w' (Returns tt)
| turn_code :
    chat_stage (session_state w) = Some "planning" ->
    lower (unicode_lower E) (strip user_input) = "/code" ->
    chat_stage (session_state w') = Some "generating" ->
    keeps_plan w w' -> keeps_code w w' ->
    engine_calls w' =
      engine_calls w ++
      [Call_execute_chat_based_planning_pipeline (requirements_of w) true] ->
    appended w w' user_input (apology E RuntimeError_running_loop) ->
    turn E user_input w w' (Returns tt)
| turn_follow_up :
    chat_stage (session_state w) = Some "generating" ->
    keeps_stage w w' -> keeps_plan w w' -> keeps_code w w' ->
    engine_calls w' = engine_calls w ->
    appended w w' user_input follow_up_reply ->
    turn E user_input w w' (Returns tt).

(** ** More of the runtime: paths, the process *)

(** [s.rfind("/")]: where the last "/" stands, or -1. The path
    functions work with offsets into the encoding: "/" is one byte and no
    part of another character, so cutting the bytes at it cuts the text
    at the same character. *)
Fixpoint rfind_sep (s : string) : Z :=
  match s with
  | EmptyString => (-1)%Z
  | String c s' =>
      let i := rfind_sep s' in
      if (0 <=? i)%Z then (i + 1)%Z
      else if Ascii.eqb c "/" then 0%Z else (-1)%Z
  end.

(** [s[i:]], for an offset counted in bytes. *)
Fixpoint slice_from (i : nat) (s : string) : string :=
  match i, s with
  | S i', String _ s' => slice_from i' s'
  | _, _ => s
  end.

(** [head == sep * len(head)] *)
Fixpoint all_sep (s : string) : bool :=
  match s with
  | EmptyString => true
  | String c s' => Ascii.eqb c "/" && all_sep s'
  end.

(** [head.rstrip("/")] *)
Fixpoint rstrip_sep (s : string) : string :=
  match s with
  | EmptyString => EmptyString
  | String c s' =>
      match rstrip_sep s' with
      | EmptyString => if Ascii.eqb c "/" then EmptyString
                       else String c EmptyString
      | t => String c t
      end
  end.

(** [os.path.basename(p)] of [posixpath]. *)
Definition os_path_basename (p : string) : string :=
  let i := Z.to_nat (rfind_sep p + 1) in
  slice_from i p.

(** [os.path.dirname(p)] of [posixpath]. *)
Definition os_path_dirname (p : string) : string :=
  let i := Z.to_nat (rfind_sep p + 1) in
  let head := slice_to i p in
  if truthy head && negb (all_sep head) then rstrip_sep head else head.

(** What the start of [streamlit_app.py] changes in the process:
    [os.environ] and [sys.path]. *)
Record process := {
  environ : gmap string string;
  sys_path : list string
}.

(** The statements of [streamlit_app.py] before its imports, given
    [os.path.abspath(__file__)]. *)
Definition streamlit_app_setup (file_abspath : string) (p : process) : process :=
  let environ' := <["PYTHONDONTWRITEBYTECODE" := "1"]> (environ p) in
  let current_dir := os_path_dirname file_abspath in
  let parent_dir := os_path_dirname current_dir in
  {| environ := environ';
     sys_path := if bool_decide (parent_dir ∈ sys_path p) then sys_path p
                 else parent_dir :: sys_path p |}.

(** The readings of the clock [datetime.now()] can give, for years of
    four digits. *)
Definition clock_reading (d : datetime) : Prop :=
  1000 <= year d < 100 * 100 /\ 1 <= month d <= 12 /\ 1 <= day d <= 31 /\
  hour d < 24 /\ minute d < 60 /\ second d < 60.

(** ** What the page draws *)

(** The calls into Streamlit that draw something. *)
Inductive element :=
| Markdown (body : string) (unsafe_allow_html : bool)
| DownloadButton (label : string) (data : archive) (file_name mime : string).

(** What a drawing function has drawn, and how it ended. *)
Definition view : Type := list element * outcome unit.

Definition chat_container_open : string :=
  "<div class=" +:+ dq +:+ "chat-container" +:+ dq +:+ ">".

Definition user_message_html (content : string) : string :=
  "<div class=" +:+ dq +:+ "message user-message" +:+ dq +:+ ">"
  +:+ content +:+ "</div>".

Definition assistant_message_html (content : string) : string :=
  "<div class=" +:+ dq +:+ "message assistant-message" +:+ dq +:+ ">"
  +:+ content +:+ "</div>".

Definition typing_indicator_html : string :=
  "<div class=" +:+ dq +:+ "message assistant-message" +:+ dq +:+ ">"
  +:+ "<div class=" +:+ dq +:+ "typing-indicator" +:+ dq +:+ ">"
  +:+ "<span class=" +:+ dq +:+ "typing-dot" +:+ dq +:+ "></span>"
  +:+ "<span class=" +:+ dq +:+ "typing-dot" +:+ dq +:+ "></span>"
  +:+ "<span class=" +:+ dq +:+ "typing-dot" +:+ dq +:+ "></span>"
  +:+ "</div>"
  +:+ "</div>".

Definition command_hint_html : string :=
  "<div class=" +:+ dq +:+ "command-hint" +:+ dq
  +:+ ">Type <code>/code</code> to generate the implementation</div>".

Definition message_html (m : message) : string :=
  if String.eqb (role m) "user" then user_message_html (content m)
  else assistant_message_html (content m).

(** [display_chat_messages]: it reads the session and draws. *)
Definition display_chat_messages (ss : SessionState) : view :=
  let opened := [Markdown chat_container_open true] in
  match messages ss with
  | None => (opened, Raises (AttributeError "messages"))
  | Some msgs =>
      let shown :=
        foldl (fun out message => out ++ [Markdown (message_html message) true])
          opened msgs in
      let typing := default false (assistant_typing ss) in
      (shown
       ++ (if typing then [Markdown typing_indicator_html true] else [])
       ++ [Markdown "</div>" true],
       Returns tt)
  end.

(** The download button of [render_chat_interface]. *)
Definition download_button (w : world) : view :=
  match code_generated (session_state w) with
  | None => ([], Raises (AttributeError "code_generated"))
  | Some false => ([], Returns tt)
  | Some true =>
      match generated_code_path (session_state w) with
      | None => ([], Raises (AttributeError "generated_code_path"))
      | Some None => ([], Returns tt)
      | Some (Some path) =>
          if truthy path then
            match files w !! path with
            | None => ([], Raises (FileNotFoundError path))
            | Some data =>
                ([DownloadButton "📥 Download Generated Code (ZIP)" data
                    (os_path_basename path) "application/zip"],
                 Returns tt)
            end
          else ([], Returns tt)
      end
  end.

(** The command hint of [render_chat_interface]. *)
Definition command_hint (w : world) : view :=
  match chat_stage (session_state w) with
  | None => ([], Raises (AttributeError "chat_stage"))
  | Some stage =>
      (if String.eqb stage "planning"
       then [Markdown command_hint_html true] else [],
       Returns tt)
  end.

(** One drawing after another; a raised exception ends the drawing. *)
Definition then_draw (first second : view) : view :=
  match first with
  | (drawn, Returns _) => (drawn ++ second.1, second.2)
  | (drawn, Raises e) => (drawn, Raises e)
  end.

(** What [render_chat_interface] draws above its form (the header of
    [ui/components.py] apart). *)
Definition render_chat_view (w : world) : view :=
  then_draw
    ([Markdown "### 💬 AI Coding Assistant" false;
      Markdown
        "Describe your coding project and I'll help you generate the implementation!"
        false], Returns tt)
    (then_draw (display_chat_messages (session_state w))
       (then_draw (download_button w) (command_hint w))).

(** ** Whole conversations *)

(** A sequence of calls of [process_user_input], each with what the
    surroundings answer during it. *)
Fixpoint run_turns (turns : list (env * string)) (w : world) : world :=
  match turns with
  | [] => w
  | (E, user_input) :: rest =>
      run_turns rest (process_user_input E user_input w).1
  end.

(** The worlds in which a run of the page script ends, from the first
    visit on. *)
Inductive visited (init : SessionState -> SessionState) : world -> Prop :=
| visited_first fs E f :
    visited init (chat_main_layout init E f (World empty_session fs [])).1
| visited_again w E f :
    visited init w ->
    visited init (chat_main_layout init E f w).1.

(** The messages of a conversation as the page builds it: the greeting,
    then for each turn the user's text and the assistant's reply, if the
    turn got as far as a reply. *)
Definition transcript (turns : list (string * option string))
  : list message :=
  Message "assistant" get_assistant_greeting ::
  flat_map
    (fun turn =>
       Message "user" turn.1 ::
       match turn.2 with
       | Some reply => [Message "assistant" reply]
       | None => []
       end) turns.

(** The plan in the session is the one made from [requirements]. *)
Definition plan_from (requirements : string) (w : world) : Prop :=
  exists plan,
    current_plan (session_state w) = Some (Some plan) /\
    truthy plan = true /\
    (plan = fallback_plan requirements \/
     exists plan_result, plan = format_plan plan_result).

(** Where a conversation stands: the stage and the calls made into the
    engine since the first visit. [interrupted] are the requirement
    texts of the planning calls that ended the turn with an exception;
    no archive is stored. *)
Inductive conversation_state (w : world) : Prop :=
| at_greeting :
    chat_stage (session_state w) = Some "greeting" ->
    engine_calls w = [] ->
    code_generated (session_state w) = Some false ->
    generated_code_path (session_state w) = Some None ->
    conversation_state w
| at_collecting interrupted :
    chat_stage (session_state w) = Some "collecting_requirements" ->
    Forall (fun requirements => 50 < len requirements) interrupted ->
    engine_calls w = map Call_run_chat_planning_agent interrupted ->
    code_generated (session_state w) = Some false ->
    generated_code_path (session_state w) = Some None ->
    conversation_state w
| at_planning interrupted requirements :
    chat_stage (session_state w) = Some "planning" ->
    Forall (fun requirements => 50 < len requirements)
      (interrupted ++ [requirements]) ->
    engine_calls w =
      map Call_run_chat_planning_agent (interrupted ++ [requirements]) ->
    plan_from requirements w ->
    code_generated (session_state w) = Some false ->
    generated_code_path (session_state w) = Some None ->
    conversation_state w
| at_generating interrupted requirements :
    chat_stage (session_state w) = Some "generating" ->
    Forall (fun requirements => 50 < len requirements)
      (interrupted ++ [requirements]) ->
    engine_calls w =
      map Call_run_chat_planning_agent (interrupted ++ [requirements])
      ++ [Call_execute_chat_based_planning_pipeline (requirements_of w) true] ->
    plan_from requirements w ->
    code_generated (session_state w) = Some false ->
    generated_code_path (session_state w) = Some None ->
    conversation_state w.

(** ** Sample runs *)

(** A handler that only sets its own key. *)
Definition sample_init (ss : SessionState) : SessionState :=
  set_processing false ss.

Definition sample_now : datetime :=
  {| year := 2025; month := 3; day := 9; hour := 7; minute := 5; second := 59 |}.

(** The wording of the library messages in one installation. *)
Definition sample_message_of (e : exn) : string :=
  match e with
  | AttributeError key =>
      "st.session_state has no attribute " +:+ dq +:+ key +:+ dq
      +:+ ". Did you forget to initialize it?"
  | FileNotFoundError path =>
      "[Errno 2] No such file or directory: '" +:+ path +:+ "'"
  | _ => ""
  end.

(** An engine that answers, one that raises at every call, and one
    whose planning agent is cancelled. *)
Definition sample_env : env :=
  {| run_chat_planning_agent := fun _ => Returns "1. Parse the input";
     execute_chat_based_planning_pipeline :=
       fun _ => Returns (PipelineResult "done");
     datetime_now := sample_now;
     open_wb := fun _ => None;
     unicode_lower := fun s => s;
     message_of := sample_message_of |}.

Definition failing_env : env :=
  {| run_chat_planning_agent :=
       fun _ => Raises (Exception "RuntimeError" "planner unavailable");
     execute_chat_based_planning_pipeline :=
       fun _ => Raises (Exception "RuntimeError" "pipeline unavailable");
     datetime_now := sample_now;
     open_wb := fun _ => None;
     unicode_lower := fun s => s;
     message_of := sample_message_of |}.

Definition cancelled_env : env :=
  {| run_chat_planning_agent :=
       fun _ => Raises (BaseException "CancelledError" "");
     execute_chat_based_planning_pipeline :=
       fun _ => Raises (BaseException "CancelledError" "");
     datetime_now := sample_now;
     open_wb := fun _ => None;
     unicode_lower := fun s => s;
     message_of := sample_message_of |}.

Definition sample_requirements : string :=
  "A web application that keeps track of my books and their authors".

(** The worlds of a first conversation, turn after turn. *)
Definition first_visit : world :=
  (initialize_chat_session_state sample_init (World empty_session ∅ [])).1.

Definition collecting_world : world :=
  (process_user_input sample_env "hello" first_visit).1.

Definition planning_world : world :=
  (process_user_input sample_env sample_requirements collecting_world).1.

Definition generating_world : world :=
  (process_user_input sample_env "/code" planning_world).1.

(** The same conversation with a planning agent that answers otherwise. *)
Definition other_env : env :=
  {| run_chat_planning_agent := fun _ => Returns "1. Draw the board";
     execute_chat_based_planning_pipeline :=
       fun _ => Returns (PipelineResult "done");
     datetime_now := sample_now;
     open_wb := fun _ => None;
     unicode_lower := fun s => s;
     message_of := sample_message_of |}.

Definition other_planning_world : world :=
  (process_user_input other_env sample_requirements collecting_world).1.

(** * Properties *)

Global Arguments format_plan : simpl never.
Global Arguments fallback_plan : simpl never.
Global Arguments readme_md : simpl never.
Global Arguments apology : simpl never.
Global Arguments zip_path_at : simpl never.
Global Arguments in_running_loop : simpl never.

(** ** The two generators, case by case *)

Lemma generate_technical_plan_eq E user_requirements w :
  generate_technical_plan E user_requirements w =
    let calls :=
      engine_calls w ++ [Call_run_chat_planning_agent user_requirements] in
    let stored plan :=
      (World (set_current_plan (Some plan) (session_state w)) (files w) calls,
       Returns plan) in
    match run_chat_planning_agent E user_requirements with
    | Returns plan_result => stored (format_plan plan_result)
    | Raises e =>
        if is_Exception e then stored (fallback_plan user_requirements)
        else (World (session_state w) (files w) calls, Raises e)
    end.
Proof.
  unfold generate_technical_plan, try_except, bind, call_engine, setattr, ret.
  destruct (run_chat_planning_agent E user_requirements) as [r|e];
    [reflexivity|].
  simpl. destruct (is_Exception e); reflexivity.
Qed.

Lemma zip_buffer_eq user_requirements :
  foldl (fun (z : archive) item => writestr z item.1 item.2) []
    (project_files user_requirements) = project_files user_requirements.
Proof. reflexivity. Qed.

Lemma generate_code_from_plan_eq E w :
  generate_code_from_plan E w =
    let ss := set_processing true (session_state w) in
    match current_plan (session_state w) with
    | None =>
        (World (set_processing false ss) (files w) (engine_calls w),
         Returns (apology E (AttributeError "current_plan")))
    | Some plan =>
        let user_requirements := or_else plan default_requirements in
        let calls :=
          engine_calls w ++
          [Call_execute_chat_based_planning_pipeline user_requirements true] in
        let zip_path := zip_path_at (datetime_now E) in
        match execute_chat_based_planning_pipeline E user_requirements,
              open_wb E zip_path with
        | Raises e, _ | Returns _, Some e =>
            (World (set_processing false ss) (files w) calls,
             if is_Exception e then Returns (apology E e) else Raises e)
        | Returns _, None =>
            (World
               (set_processing false
                  (set_code_generated true
                     (set_generated_code_path (Some zip_path) ss)))
               (<[zip_path := project_files user_requirements]> (files w))
               calls,
             Returns code_generated_response)
        end
    end.
Proof.
  unfold generate_code_from_plan, try_finally, try_except, bind, getattr,
    call_engine, write_file, setattr, ret.
  simpl. destruct (current_plan (session_state w)) as [plan|]; [|reflexivity].
  simpl. destruct (execute_chat_based_planning_pipeline E _) as [r|e].
  - simpl. destruct (open_wb E _) as [e|]; [|reflexivity].
    simpl. destruct (is_Exception e); reflexivity.
  - simpl. destruct (is_Exception e); reflexivity.
Qed.

(** Inside [process_user_input] the generation ends in the apology for
    the running event loop. *)
Lemma generate_code_on_page E w plan :
  current_plan (session_state w) = Some plan ->
  generate_code_from_plan (in_running_loop E) w =
    (World (set_processing false (set_processing true (session_state w)))
       (files w)
       (engine_calls w ++
        [Call_execute_chat_based_planning_pipeline
           (or_else plan default_requirements) true]),
     Returns (apology E RuntimeError_running_loop)).
Proof.
  intros Hp. rewrite generate_code_from_plan_eq, Hp. reflexivity.
Qed.

Lemma add_message_eq role content w msgs :
  messages (session_state w) = Some msgs ->
  add_message role content w =
    (with_session (set_messages (msgs ++ [Message role content])
                     (session_state w)) w, Returns tt).
Proof.
  intros H. unfold add_message, bind, getattr, setattr. rewrite H. reflexivity.
Qed.

Local Ltac turn_facts :=
  unfold keeps_plan, keeps_code, keeps_stage, appended, appended_user; simpl;
  try rewrite <- !app_assoc; simpl; eauto 10 with lia.

Lemma process_user_input_turn E user_input w :
  session_ok (session_state w) ->
  exists w' r, process_user_input E user_input w = (w', r) /\
               turn E user_input w w' r.
Proof.
  destruct w as [ss fs cs]. destruct ss as [m cp cg gp st ty pr].
  intros [[msgs Hm] (s & Hs & Hin) [plan Hp] Hplan Hcode]. simpl in *. subst.
  unfold stages in Hin. set_unfold in Hin.
  destruct Hin as [-> | [-> | [-> | [-> | []]]]].
  - do 2 eexists. split.
    + unfold process_user_input, add_message, bind, getattr, setattr, ret.
      simpl. reflexivity.
    + apply turn_greeting; turn_facts.
  - unfold process_user_input.
    destruct (Nat.ltb_spec 50 (len user_input)) as [Hlen|Hlen].
    + unfold add_message, bind, getattr, setattr, ret. simpl.
      rewrite generate_technical_plan_eq. simpl.
      destruct (run_chat_planning_agent E user_input) as [r|e] eqn:Hr;
        [|destruct (is_Exception e) eqn:He].
      * do 2 eexists. split; [reflexivity|].
        eapply turn_plan; try rewrite Hr;
          try (intros ? [=]; subst; assumption); turn_facts.
      * do 2 eexists. split; [reflexivity|].
        eapply turn_plan; try rewrite Hr;
          try (intros ? [=]; subst; assumption); turn_facts.
      * do 2 eexists. split; [reflexivity|].
        eapply turn_plan_interrupted; turn_facts.
    + do 2 eexists. split.
      * unfold add_message, bind, getattr, setattr, ret. simpl. reflexivity.
      * apply turn_more_details; turn_facts.
  - unfold process_user_input.
    destruct (String.eqb_spec (lower (unicode_lower E) (strip user_input))
                "/code") as [Hc|Hc].
    + unfold add_message, bind, getattr, setattr, ret. simpl.
      change (apology (in_running_loop E)) with (apology E).
      do 2 eexists. split; [reflexivity|].
      apply turn_code; turn_facts.
    + do 2 eexists. split.
      * unfold add_message, bind, getattr, setattr, ret. simpl. reflexivity.
      * apply turn_reminder; turn_facts.
  - do 2 eexists. split.
    + unfold process_user_input, add_message, bind, getattr, setattr, ret.
      simpl. reflexivity.
    + apply turn_follow_up; turn_facts.
Qed.

(** ** The invariant of the session *)

Lemma session_ok_ext ss ss' :
  chat_keys ss' = chat_keys ss -> session_ok ss -> session_ok ss'.
Proof.
  unfold chat_keys. intros [= Hm Hp Hg Hpath Hs] [? ? ? ? ?].
  split; rewrite ?Hm, ?Hp, ?Hg, ?Hpath, ?Hs; assumption.
Qed.

Lemma initialize_first_visit init fs :
  keeps_chat_keys init ->
  session_ok
    (session_state
       (initialize_chat_session_state init (World empty_session fs [])).1).
Proof.
  intros Hk. specialize (Hk empty_session). unfold chat_keys in Hk.
  unfold initialize_chat_session_state, bind, if_not_in, setattr. simpl.
  destruct (init empty_session) as [m cp cg gp st ty pr]. simpl in Hk.
  injection Hk as -> -> -> -> ->. simpl.
  split; simpl; eauto.
  - eexists. split; [reflexivity|]. unfold stages. repeat constructor.
  - intros [[=]|[=]].
Qed.

Lemma initialize_again init w :
  keeps_chat_keys init -> session_ok (session_state w) ->
  initialize_chat_session_state init w =
    (with_session (init (session_state w)) w, Returns tt).
Proof.
  intros Hk Hok. specialize (Hk (session_state w)).
  apply (session_ok_ext _ _ Hk) in Hok.
  destruct Hok as [[msgs Hm] (s & Hs & _) [plan Hp] _ Hcode].
  unfold initialize_chat_session_state, bind, if_not_in, setattr. simpl.
  rewrite Hm. simpl. rewrite Hp. simpl.
  destruct Hcode as [[Hg Hpath]|[Hg [p Hpath]]];
    rewrite Hg; simpl; rewrite Hpath; simpl; rewrite Hs; reflexivity.
Qed.

Lemma show_initial_greeting_eq w msgs :
  messages (session_state w) = Some msgs ->
  show_initial_greeting w =
    (match msgs with
     | [] => with_session
               (set_messages [Message "assistant" get_assistant_greeting]
                  (session_state w)) w
     | _ :: _ => w
     end, Returns tt).
Proof.
  intros Hm. unfold show_initial_greeting, bind, getattr at 1. rewrite Hm.
  destruct msgs; [|reflexivity]. rewrite (add_message_eq _ _ _ []); done.
Qed.

Lemma show_initial_greeting_ok w :
  session_ok (session_state w) ->
  session_ok (session_state (show_initial_greeting w).1).
Proof.
  intros Hok. destruct (ok_messages _ Hok) as [msgs Hm].
  rewrite (show_initial_greeting_eq _ msgs Hm).
  destruct msgs; [|exact Hok]. simpl.
  destruct Hok as [_ ? ? ? ?]. split; simpl; eauto.
Qed.

Lemma stage_listed s :
  s = "greeting" \/ s = "collecting_requirements" \/ s = "planning" \/
  s = "generating" <-> s ∈ stages.
Proof. unfold stages. set_unfold. tauto. Qed.

Lemma turn_ok E user_input w w' r :
  session_ok (session_state w) -> turn E user_input w w' r ->
  session_ok (session_state w').
Proof.
  intros [_ (s & Hs & Hin) Hkey Hplan Hcode] Hturn.
  apply stage_listed in Hin.
  destruct Hturn;
    unfold keeps_plan, keeps_code, keeps_stage, appended, appended_user in *;
    repeat match goal with
      | H : _ /\ _ |- _ => destruct H
      | H : exists _, _ |- _ => destruct H
      end.
  all: split.
  all: repeat match goal with
         | H : ?f (session_state ?v) = _ |- context [?f (session_state ?v)] =>
             rewrite H
         end.
  all: try (eexists; split; [reflexivity|apply stage_listed; tauto]).
  all: try (eexists; split; [eassumption|apply stage_listed; tauto]).
  all: try (intros [[=]|[=]]; fail).
  all: try (intros _; apply Hplan; auto; fail).
  all: eauto.
Qed.

Lemma reachable_ok init w :
  keeps_chat_keys init -> reachable init w -> session_ok (session_state w).
Proof.
  intros Hk. induction 1 as [fs|w fs _ IH|w _ IH|w _ IH|w E user_input _ IH].
  - apply initialize_first_visit, Hk.
  - exact IH.
  - rewrite initialize_again by assumption. simpl.
    exact (session_ok_ext _ _ (Hk _) IH).
  - apply show_initial_greeting_ok, IH.
  - destruct (process_user_input_turn E user_input w IH) as (w' & r & -> & Ht).
    exact (turn_ok _ _ _ _ _ IH Ht).
Qed.

(** From a reachable world, a call of [process_user_input] takes one of
    the branches of [turn]. *)
Lemma reachable_turn_run init E user_input w :
  keeps_chat_keys init -> reachable init w ->
  turn E user_input w (process_user_input E user_input w).1
    (process_user_input E user_input w).2.
Proof.
  intros Hk Hr.
  destruct (process_user_input_turn E user_input w (reachable_ok _ _ Hk Hr))
    as (w' & r & -> & Ht).
  exact Ht.
Qed.

(** A turn that ends with an exception is one whose planning call was
    ended by an exception that is no instance of [Exception]. *)
Lemma turn_raises E user_input w w' e :
  turn E user_input w w' (Raises e) ->
  chat_stage (session_state w) = Some "collecting_requirements" /\
  50 < len user_input /\
  run_chat_planning_agent E user_input = Raises e /\
  is_Exception e = false /\
  keeps_stage w w' /\ keeps_plan w w' /\ keeps_code w w' /\
  engine_calls w' = engine_calls w ++ [Call_run_chat_planning_agent user_input]
  /\ appended_user w w' user_input.
Proof. inversion 1; subst; tauto. Qed.

(** The conversation starts in the greeting stage. *)
Lemma first_visit_stage init fs :
  keeps_chat_keys init ->
  chat_stage
    (session_state
       (initialize_chat_session_state init (World empty_session fs [])).1)
    = Some "greeting".
Proof.
  intros Hk. specialize (Hk empty_session). unfold chat_keys in Hk.
  unfold initialize_chat_session_state, bind, if_not_in, setattr. simpl.
  destruct (init empty_session) as [m cp cg gp st ty pr]. simpl in Hk.
  injection Hk as -> -> -> -> ->. reflexivity.
Qed.

Lemma initialize_returns init w :
  (initialize_chat_session_state init w).2 = Returns tt.
Proof.
  unfold initialize_chat_session_state, bind, if_not_in, setattr. simpl.
  destruct (messages (init (session_state w))); simpl;
    destruct (current_plan (init (session_state w))); simpl;
    destruct (code_generated (init (session_state w))); simpl;
    destruct (generated_code_path (init (session_state w))); simpl;
    destruct (chat_stage (init (session_state w))); reflexivity.
Qed.

Lemma render_chat_interface_cases E f w :
  (render_chat_interface E f w).1 = w \/
  (render_chat_interface E f w).1
    = (process_user_input E (user_input_area f) w).1.
Proof.
  assert (Hs : forall r : world * outcome unit,
             (match r with
              | (w', Returns _) => (w', @Raises unit RerunException)
              | (w', Raises e) => (w', Raises e)
              end).1 = r.1).
  { intros [w' [[]|e]]; reflexivity. }
  unfold render_chat_interface, bind, getattr, open_rb, ret, raise.
  destruct (messages (session_state w)); simpl; auto.
  destruct (code_generated (session_state w)) as [[|]|]; simpl; auto;
    [destruct (generated_code_path (session_state w)) as [[p|]|];
     simpl; auto;
     [destruct (truthy p); simpl; [destruct (files w !! p); simpl; auto|]|]
    |];
    (destruct (chat_stage (session_state w)); simpl; auto);
    destruct (submit_button f && truthy (user_input_area f)); auto.
Qed.

(** A run of the page script, from a fresh session or from a reachable
    world, ends in a reachable world. *)
Lemma chat_main_layout_reachable init E f w :
  keeps_chat_keys init ->
  (exists fs, w = World empty_session fs []) \/ reachable init w ->
  reachable init (chat_main_layout init E f w).1.
Proof.
  intros Hk Hw.
  assert (Hr1 : reachable init (initialize_chat_session_state init w).1).
  { destruct Hw as [[fs ->]|Hr]; [apply reachable_first_visit|].
    apply reachable_rerun, Hr. }
  pose proof (initialize_returns init w) as Hret.
  unfold chat_main_layout, bind at 1.
  destruct (initialize_chat_session_state init w) as [w1 r1].
  simpl in Hr1, Hret. subst r1.
  pose proof (reachable_greeting _ _ Hr1) as Hr2.
  destruct (ok_messages _ (reachable_ok _ _ Hk Hr1)) as [msgs Hm].
  unfold bind at 1. rewrite (show_initial_greeting_eq _ _ Hm) in *.
  simpl in Hr2.
  destruct (render_chat_interface_cases E f
              (match msgs with
               | [] => with_session
                         (set_messages
                            [Message "assistant" get_assistant_greeting]
                            (session_state w1)) w1
               | _ :: _ => w1
               end)) as [-> | ->].
  - exact Hr2.
  - apply reachable_turn, Hr2.
Qed.

(** ** The sample worlds are reachable *)

Lemma sample_init_keeps : keeps_chat_keys sample_init.
Proof. intros ss. reflexivity. Qed.

Lemma first_visit_reachable : reachable sample_init first_visit.
Proof. apply reachable_first_visit. Qed.

Lemma collecting_world_reachable : reachable sample_init collecting_world.
Proof. apply reachable_turn, first_visit_reachable. Qed.

Lemma planning_world_reachable : reachable sample_init planning_world.
Proof. apply reachable_turn, collecting_world_reachable. Qed.

Lemma generating_world_reachable : reachable sample_init generating_world.
Proof. apply reachable_turn, planning_world_reachable. Qed.

Lemma planning_world_stage :
  chat_stage (session_state planning_world) = Some "planning".
Proof. vm_compute. reflexivity. Qed.

(** ** The stage *)

(** C1. In every reachable world the conversation stage is one of the
    four values greeting, collecting_requirements, planning, generating;
    and whatever the input and the engine's answers, a call of
    [process_user_input] leaves the stage as it is or moves it to the
    next stage of that order. It never moves backwards. *)
Theorem C1_stage_monotone init w :
  keeps_chat_keys init -> reachable init w ->
  exists s,
    chat_stage (session_state w) = Some s /\ s ∈ stages /\
    forall E user_input, exists s',
      chat_stage (session_state (process_user_input E user_input w).1)
        = Some s' /\
      (s' = s \/ stage_next s s').
Proof.
  intros Hk Hr.
  destruct (ok_stage _ (reachable_ok _ _ Hk Hr)) as (s & Hs & Hin).
  exists s. split; [exact Hs|]. split; [exact Hin|].
  intros E user_input.
  pose proof (reachable_turn_run init E user_input w Hk Hr) as Ht.
  destruct (process_user_input E user_input w) as [w' r]. simpl in *.
  destruct Ht;
    match goal with
    | H : chat_stage (session_state w) = Some ?x |- _ =>
        assert (s = x) as -> by congruence
    end.
  all: first
    [ eexists; split; [eassumption|]
    | eexists; split; [unfold keeps_stage in *; etransitivity; eassumption|] ].
  all: auto using stage_next.
Qed.

Lemma C1_stage_monotone_witness :
  exists s,
    chat_stage (session_state collecting_world) = Some s /\ s ∈ stages /\
    forall E user_input, exists s',
      chat_stage
        (session_state (process_user_input E user_input collecting_world).1)
        = Some s' /\
      (s' = s \/ stage_next s s').
Proof.
  apply (C1_stage_monotone sample_init collecting_world).
  - exact sample_init_keeps.
  - exact collecting_world_reachable.
Defined.

(** ** Failures of the engine *)

(** The requirement text [generate_code_from_plan] works from, when the
    key [current_plan] is set. *)
Lemma requirements_of_plan w plan :
  current_plan (session_state w) = Some plan ->
  requirements_of w = or_else plan default_requirements.
Proof. unfold requirements_of. intros ->. reflexivity. Qed.

(** C2, as amended. Both generators catch the instances of [Exception]
    and no other exception. When [run_chat_planning_agent] raises an
    instance of [Exception], [generate_technical_plan] returns the
    fallback plan, the fixed template around the first 100 characters of
    the requirements, and stores it as the current plan. When
    [execute_chat_based_planning_pipeline] raises one, or the pipeline
    returned and storing the archive raises one,
    [generate_code_from_plan] returns the apology text, which ends with
    [str(e)]. An exception that is no instance of [Exception] (a
    cancellation, a keyboard interrupt, an exit) goes on to the caller:
    the planning generator then stores no plan, and the code generator
    still resets [processing]. Nothing else makes either function
    raise. *)
Theorem C2_engine_failures_caught E w :
  (forall user_requirements e,
     run_chat_planning_agent E user_requirements = Raises e ->
     is_Exception e = true ->
     exists w',
       generate_technical_plan E user_requirements w
         = (w', Returns (fallback_plan user_requirements)) /\
       current_plan (session_state w')
         = Some (Some (fallback_plan user_requirements)) /\
       fallback_plan user_requirements
         = fallback_plan_header +:+ slice_chars 100 user_requirements
           +:+ fallback_plan_footer) /\
  (forall e,
     is_Some (current_plan (session_state w)) ->
     execute_chat_based_planning_pipeline E (requirements_of w) = Raises e \/
     (exists result,
        execute_chat_based_planning_pipeline E (requirements_of w)
          = Returns result) /\
     open_wb E (zip_path_at (datetime_now E)) = Some e ->
     is_Exception e = true ->
     exists w',
       generate_code_from_plan E w = (w', Returns (apology E e)) /\
       apology E e = apology_prefix +:+ str E e) /\
  (forall user_requirements e,
     run_chat_planning_agent E user_requirements = Raises e ->
     is_Exception e = false ->
     exists w',
       generate_technical_plan E user_requirements w = (w', Raises e) /\
       session_state w' = session_state w) /\
  (forall e,
     is_Some (current_plan (session_state w)) ->
     execute_chat_based_planning_pipeline E (requirements_of w) = Raises e \/
     (exists result,
        execute_chat_based_planning_pipeline E (requirements_of w)
          = Returns result) /\
     open_wb E (zip_path_at (datetime_now E)) = Some e ->
     is_Exception e = false ->
     exists w',
       generate_code_from_plan E w = (w', Raises e) /\
       processing (session_state w') = Some false /\
       keeps_plan w w' /\ keeps_code w w') /\
  (forall user_requirements e,
     (generate_technical_plan E user_requirements w).2 = Raises e ->
     run_chat_planning_agent E user_requirements = Raises e /\
     is_Exception e = false) /\
  (forall e,
     (generate_code_from_plan E w).2 = Raises e ->
     is_Exception e = false /\
     (execute_chat_based_planning_pipeline E (requirements_of w) = Raises e \/
      open_wb E (zip_path_at (datetime_now E)) = Some e)).
Proof.
  split; [|split; [|split; [|split; [|split]]]].
  - intros user_requirements e He Hexc.
    rewrite generate_technical_plan_eq, He. simpl. rewrite Hexc.
    eexists. repeat split.
  - intros e [plan Hp] He Hexc. rewrite generate_code_from_plan_eq. simpl.
    rewrite (requirements_of_plan _ _ Hp) in He. rewrite Hp.
    destruct He as [->|[[result ->] ->]]; rewrite Hexc;
      eexists; split; reflexivity.
  - intros user_requirements e He Hexc.
    rewrite generate_technical_plan_eq, He. simpl. rewrite Hexc.
    eexists. split; reflexivity.
  - intros e [plan Hp] He Hexc. rewrite generate_code_from_plan_eq. simpl.
    rewrite (requirements_of_plan _ _ Hp) in He. rewrite Hp.
    destruct He as [->|[[result ->] ->]]; rewrite Hexc;
      eexists; (split; [reflexivity|]); repeat split; assumption.
  - intros user_requirements e. rewrite generate_technical_plan_eq. simpl.
    destruct (run_chat_planning_agent E user_requirements) as [r|e'];
      [discriminate|].
    destruct (is_Exception e') eqn:Hexc; [discriminate|].
    simpl. intros [= ->]. split; [reflexivity|exact Hexc].
  - intros e. rewrite generate_code_from_plan_eq. unfold requirements_of.
    simpl.
    destruct (current_plan (session_state w)) as [plan|]; [|discriminate].
    destruct (execute_chat_based_planning_pipeline E _) as [r|e'];
      [destruct (open_wb E _) as [e'|]; [|discriminate]|];
      destruct (is_Exception e') eqn:Hexc; try discriminate;
      simpl; intros [= ->]; auto.
Qed.

Lemma C2_engine_failures_caught_witness :
  (exists w',
     generate_technical_plan failing_env sample_requirements collecting_world
       = (w', Returns (fallback_plan sample_requirements)) /\
     current_plan (session_state w')
       = Some (Some (fallback_plan sample_requirements)) /\
     fallback_plan sample_requirements
       = fallback_plan_header +:+ slice_chars 100 sample_requirements
         +:+ fallback_plan_footer) /\
  (exists w',
     generate_code_from_plan failing_env planning_world
       = (w', Returns (apology failing_env
                         (Exception "RuntimeError" "pipeline unavailable")))
     /\ apology failing_env (Exception "RuntimeError" "pipeline unavailable")
        = apology_prefix +:+ "pipeline unavailable") /\
  (exists w',
     generate_technical_plan cancelled_env sample_requirements
       collecting_world
       = (w', Raises (BaseException "CancelledError" "")) /\
     session_state w' = session_state collecting_world).
Proof.
  destruct (C2_engine_failures_caught failing_env collecting_world)
    as (Hplan & _).
  destruct (C2_engine_failures_caught failing_env planning_world)
    as (_ & Hcode & _).
  destruct (C2_engine_failures_caught cancelled_env collecting_world)
    as (_ & _ & Hout & _).
  split; [|split].
  - apply (Hplan sample_requirements
             (Exception "RuntimeError" "planner unavailable"));
      reflexivity.
  - apply (Hcode (Exception "RuntimeError" "pipeline unavailable")).
    + vm_compute. eauto.
    + left. reflexivity.
    + reflexivity.
  - apply (Hout sample_requirements (BaseException "CancelledError" ""));
      reflexivity.
Defined.

(** C2 as it is written fails: an exception of the engine that is no
    instance of [Exception], here the cancellation of the call, is not
    caught. Both generators pass it on to their caller, and
    [generate_technical_plan] stores no plan. *)
Lemma C2_counterexample :
  (generate_technical_plan cancelled_env sample_requirements
     collecting_world).2
    = Raises (BaseException "CancelledError" "") /\
  current_plan
    (session_state
       (generate_technical_plan cancelled_env sample_requirements
          collecting_world).1) = Some None /\
  (generate_code_from_plan cancelled_env planning_world).2
    = Raises (BaseException "CancelledError" "").
Proof. repeat split; vm_compute; reflexivity. Qed.

(** ** The [/code] command *)

Lemma app_one_neq {A} (l : list A) (x : A) : l ++ [x] <> l.
Proof.
  intros H. apply (f_equal length) in H. rewrite length_app in H.
  simpl in H. lia.
Qed.

(** C3. In the planning stage a call of [process_user_input] runs the
    code generation (the pipeline is called once more) and moves the
    stage to generating exactly when the input, stripped and lowercased,
    is "/code". For every other input the stage, the stored plan, the
    code-generated flag with the archive path and files, and the calls
    into the engine are as before, and the turn only adds the user's text
    and the reminder to the messages. *)
Theorem C3_code_command init w E user_input :
  keeps_chat_keys init -> reachable init w ->
  chat_stage (session_state w) = Some "planning" ->
  let w' := (process_user_input E user_input w).1 in
  let command := lower (unicode_lower E) (strip user_input) in
  (command = "/code" <->
   chat_stage (session_state w') = Some "generating") /\
  (command = "/code" <->
   engine_calls w' =
     engine_calls w ++
     [Call_execute_chat_based_planning_pipeline (requirements_of w) true]) /\
  (command <> "/code" ->
   (process_user_input E user_input w).2 = Returns tt /\
   keeps_stage w w' /\ keeps_plan w w' /\ keeps_code w w' /\
   engine_calls w' = engine_calls w /\
   appended w w' user_input type_code_reminder).
Proof.
  intros Hk Hr Hs w' command.
  pose proof (reachable_turn_run init E user_input w Hk Hr) as Ht.
  subst w' command.
  destruct (process_user_input E user_input w) as [w' r]. simpl in *.
  destruct Ht; try congruence.
  - (* another input *)
    split; [|split]; [split|split|auto 10].
    + contradiction.
    + unfold keeps_stage in *. congruence.
    + contradiction.
    + intros Hc. rewrite Hc in *.
      match goal with H : _ ++ [_] = _ |- _ => destruct (app_one_neq _ _ H) end.
  - (* /code *)
    split; [|split]; [tauto|tauto|contradiction].
Qed.

Lemma C3_code_command_witness :
  let user_input := "　/Code " in
  let w' := (process_user_input sample_env user_input planning_world).1 in
  let command := lower (unicode_lower sample_env) (strip user_input) in
  command = "/code" /\
  chat_stage (session_state w') = Some "generating" /\
  engine_calls w' =
    engine_calls planning_world ++
    [Call_execute_chat_based_planning_pipeline
       (requirements_of planning_world) true].
Proof.
  intros user_input w' command.
  destruct (C3_code_command sample_init planning_world sample_env user_input)
    as (Hstage & Hcalls & _).
  - exact sample_init_keeps.
  - exact planning_world_reachable.
  - vm_compute. reflexivity.
  - assert (Hc : command = "/code") by (vm_compute; reflexivity).
    split; [exact Hc|]. split.
    + apply Hstage, Hc.
    + apply Hcalls, Hc.
Defined.

(** ** The archive *)

Lemma zip_path_at_eq d :
  zip_path_at d = "/tmp/generated_code_" +:+ strftime_Ymd_HMS d +:+ ".zip".
Proof. reflexivity. Qed.

Lemma apology_not_success E e : apology E e <> code_generated_response.
Proof.
  unfold apology, apology_prefix, code_generated_response. simpl.
  discriminate.
Qed.

Lemma Returns_inj {A} (a b : A) : Returns a = Returns b -> a = b.
Proof. congruence. Qed.

(** What a call of [generate_code_from_plan] that answers with the
    success text has done. *)
Lemma generate_code_success E w w' :
  generate_code_from_plan E w = (w', Returns code_generated_response) ->
  files w' =
    <[zip_path_at (datetime_now E) := project_files (requirements_of w)]>
      (files w) /\
  code_generated (session_state w') = Some true /\
  generated_code_path (session_state w')
    = Some (Some (zip_path_at (datetime_now E))).
Proof.
  rewrite generate_code_from_plan_eq. unfold requirements_of. simpl.
  intros H. pose proof (f_equal snd H) as Hr. apply (f_equal fst) in H.
  revert H Hr.
  destruct (current_plan (session_state w)) as [plan|];
    [destruct (execute_chat_based_planning_pipeline E _) as [r|e];
     [destruct (open_wb E _) as [e|]|]|];
    simpl; intros <- Hr; auto;
    try (destruct (is_Exception e); [|discriminate]);
    apply Returns_inj, apology_not_success in Hr; destruct Hr.
Qed.

(** C4, as amended. When code generation succeeds, the archive holds
    exactly three members, README.md, requirements.txt and main.py in
    that order. requirements.txt and main.py have fixed contents;
    README.md is a fixed template around the first 200 characters of the
    current plan (of the default requirement text when the plan is None or
    empty). The archive is stored at /tmp/generated_code_<timestamp>.zip,
    a path fixed by the timestamp alone, replacing a file already there
    and leaving the other files as they were. *)
Theorem C4_archive_contents E w w' :
  generate_code_from_plan E w = (w', Returns code_generated_response) ->
  let zip_path :=
    "/tmp/generated_code_" +:+ strftime_Ymd_HMS (datetime_now E) +:+ ".zip" in
  files w' =
    <[zip_path :=
        [ ("README.md",
           readme_header +:+ slice_chars 200 (requirements_of w)
           +:+ readme_footer);
          ("requirements.txt", requirements_txt);
          ("main.py", main_py) ]]> (files w) /\
  generated_code_path (session_state w') = Some (Some zip_path).
Proof.
  intros Hrun. apply generate_code_success in Hrun as (Hf & _ & Hp).
  rewrite zip_path_at_eq in Hf, Hp. split; assumption.
Qed.

Lemma C4_archive_contents_witness :
  let w' := (generate_code_from_plan sample_env planning_world).1 in
  files w' =
    <["/tmp/generated_code_20250309_070559.zip" :=
        [ ("README.md",
           readme_header +:+ slice_chars 200 (requirements_of planning_world)
           +:+ readme_footer);
          ("requirements.txt", requirements_txt);
          ("main.py", main_py) ]]> (files planning_world) /\
  generated_code_path (session_state w')
    = Some (Some "/tmp/generated_code_20250309_070559.zip").
Proof.
  apply (C4_archive_contents sample_env planning_world).
  vm_compute. reflexivity.
Defined.

(** C4 as it is written fails: the members are not fixed. Two
    conversations that differ in what the planning agent answered both
    generate code with success, at the same path, and the archives they
    store differ (in README.md). *)
Lemma C4_counterexample :
  let run w := generate_code_from_plan sample_env w in
  (run planning_world).2 = Returns code_generated_response /\
  (run other_planning_world).2 = Returns code_generated_response /\
  files (run planning_world).1 !! zip_path_at sample_now <>
  files (run other_planning_world).1 !! zip_path_at sample_now.
Proof.
  split; [vm_compute; reflexivity|]. split; [vm_compute; reflexivity|].
  vm_compute. discriminate.
Qed.

(** ** The stored plan *)

Lemma add_message_keeps role content w :
  keeps_plan w (add_message role content w).1 /\
  keeps_code w (add_message role content w).1 /\
  keeps_stage w (add_message role content w).1 /\
  engine_calls (add_message role content w).1 = engine_calls w.
Proof.
  unfold add_message, bind, getattr, setattr.
  destruct (messages (session_state w)); repeat split.
Qed.

Lemma generate_code_keeps_plan E w :
  keeps_plan w (generate_code_from_plan E w).1.
Proof.
  rewrite generate_code_from_plan_eq. simpl.
  destruct (current_plan (session_state w)) as [plan|] eqn:Hp;
    [destruct (execute_chat_based_planning_pipeline E _);
     [destruct (open_wb E _)|]|];
    unfold keeps_plan; simpl; rewrite Hp; reflexivity.
Qed.

Lemma initialize_keeps_plan init w :
  keeps_chat_keys init -> is_Some (current_plan (session_state w)) ->
  keeps_plan w (initialize_chat_session_state init w).1.
Proof.
  intros Hk [plan Hp]. specialize (Hk (session_state w)).
  unfold chat_keys in Hk. injection Hk as _ Hp' _ _ _. rewrite Hp in Hp'.
  unfold initialize_chat_session_state, bind, if_not_in, setattr, keeps_plan.
  simpl.
  destruct (messages (init (session_state w))); simpl; rewrite Hp'; simpl;
    (destruct (code_generated (init (session_state w))); simpl;
     destruct (generated_code_path (init (session_state w))); simpl;
     destruct (chat_stage (init (session_state w))); simpl;
     congruence).
Qed.

Lemma process_user_input_keeps_plan E user_input w :
  ~ (chat_stage (session_state w) = Some "collecting_requirements" /\
     50 < len user_input) ->
  keeps_plan w (process_user_input E user_input w).1.
Proof.
  intros Hno. destruct w as [ss fs cs]. destruct ss as [m cp cg gp st ty pr].
  unfold process_user_input, keeps_plan. simpl in *.
  destruct m as [msgs|]; [|reflexivity].
  destruct st as [s|]; [|reflexivity].
  unfold add_message, bind, getattr, setattr, ret. simpl.
  destruct (String.eqb_spec s "greeting"); [reflexivity|].
  destruct (String.eqb_spec s "collecting_requirements") as [->|_].
  { destruct (Nat.ltb_spec 50 (len user_input)); [|reflexivity].
    destruct Hno. auto. }
  destruct (String.eqb_spec s "planning") as [->|_].
  { destruct (String.eqb (lower (unicode_lower E) (strip user_input)) "/code");
      [|reflexivity].
    rewrite generate_code_from_plan_eq. simpl.
    destruct cp as [plan|]; reflexivity. }
  destruct (String.eqb s "generating"); reflexivity.
Qed.

Lemma run_turns_reachable init turns w :
  reachable init w -> reachable init (run_turns turns w).
Proof.
  revert w. induction turns as [|[E user_input] turns IH]; intros w Hr.
  - exact Hr.
  - simpl. apply IH, reachable_turn, Hr.
Qed.

(** Once there is a plan, no sequence of turns changes it. *)
Lemma plan_kept_from_planning init turns w :
  keeps_chat_keys init -> reachable init w ->
  chat_stage (session_state w) = Some "planning" \/
  chat_stage (session_state w) = Some "generating" ->
  keeps_plan w (run_turns turns w).
Proof.
  intros Hk. revert w.
  induction turns as [|[E user_input] turns IH]; intros w Hr Hs.
  - reflexivity.
  - simpl.
    pose proof (reachable_turn_run init E user_input w Hk Hr) as Ht.
    pose proof (reachable_turn _ _ E user_input Hr) as Hr'.
    specialize (IH (process_user_input E user_input w).1 Hr').
    destruct (process_user_input E user_input w) as [w' r]. simpl in *.
    unfold keeps_plan, keeps_stage in *.
    assert (Hstep :
              current_plan (session_state w') = current_plan (session_state w)
              /\ (chat_stage (session_state w') = Some "planning" \/
                  chat_stage (session_state w') = Some "generating")).
    { destruct Ht; destruct Hs as [Hs|Hs]; try congruence;
        (split; [assumption|]); first [left; congruence|right; congruence]. }
    destruct Hstep as [Hp Hs']. rewrite (IH Hs'). exact Hp.
Qed.

(** C5. [generate_technical_plan] stores the plan text it returns as
    the session's [current_plan], in both branches: header, the agent's
    answer and footer when the planning agent answered, the fallback plan
    when it raised an instance of [Exception]; whenever the function
    returns, what it returns is what is stored, and when it does not
    return the plan is as before. No other operation changes
    [current_plan]: not [add_message], the greeting,
    [generate_code_from_plan], a repeated initialisation once the key is
    set, nor any call of [process_user_input] other than the one that
    generates the plan (stage collecting_requirements, input longer than
    50 characters). So from a reachable world in the planning or the
    generating stage no sequence of turns changes the plan: it is as it
    was produced when the user asks for the code, and after. *)
Theorem C5_plan_stored_and_kept E w :
  (forall user_requirements plan_result,
     run_chat_planning_agent E user_requirements = Returns plan_result ->
     exists w',
       generate_technical_plan E user_requirements w
         = (w', Returns (plan_header +:+ plan_result +:+ plan_footer)) /\
       current_plan (session_state w')
         = Some (Some (plan_header +:+ plan_result +:+ plan_footer))) /\
  (forall user_requirements e,
     run_chat_planning_agent E user_requirements = Raises e ->
     is_Exception e = true ->
     exists w',
       generate_technical_plan E user_requirements w
         = (w', Returns (fallback_plan user_requirements)) /\
       current_plan (session_state w')
         = Some (Some (fallback_plan user_requirements))) /\
  (forall user_requirements w' plan,
     generate_technical_plan E user_requirements w = (w', Returns plan) ->
     current_plan (session_state w') = Some (Some plan)) /\
  (forall user_requirements w' e,
     generate_technical_plan E user_requirements w = (w', Raises e) ->
     keeps_plan w w') /\
  (forall role content, keeps_plan w (add_message role content w).1) /\
  keeps_plan w (show_initial_greeting w).1 /\
  keeps_plan w (generate_code_from_plan E w).1 /\
  (forall init,
     keeps_chat_keys init -> is_Some (current_plan (session_state w)) ->
     keeps_plan w (initialize_chat_session_state init w).1) /\
  (forall user_input,
     ~ (chat_stage (session_state w) = Some "collecting_requirements" /\
        50 < len user_input) ->
     keeps_plan w (process_user_input E user_input w).1) /\
  (forall init turns,
     keeps_chat_keys init -> reachable init w ->
     chat_stage (session_state w) = Some "planning" \/
     chat_stage (session_state w) = Some "generating" ->
     keeps_plan w (run_turns turns w)).
Proof.
  split; [|split; [|split; [|split; [|split; [|split; [|split; [|split;
    [|split]]]]]]]].
  - intros user_requirements plan_result Hr.
    rewrite generate_technical_plan_eq, Hr. eexists. split; reflexivity.
  - intros user_requirements e Hr He.
    rewrite generate_technical_plan_eq, Hr. simpl. rewrite He.
    eexists. split; reflexivity.
  - intros user_requirements w' plan.
    rewrite generate_technical_plan_eq. simpl.
    destruct (run_chat_planning_agent E user_requirements) as [r|e];
      [|destruct (is_Exception e)]; intros [= <- <-]; reflexivity.
  - intros user_requirements w' e.
    rewrite generate_technical_plan_eq. simpl.
    destruct (run_chat_planning_agent E user_requirements) as [r|e'];
      [|destruct (is_Exception e')]; intros [= <- <-]; reflexivity.
  - intros role content. apply add_message_keeps.
  - unfold show_initial_greeting, bind, getattr at 1.
    destruct (messages (session_state w)) as [[|m msgs]|];
      try reflexivity.
    apply add_message_keeps.
  - apply generate_code_keeps_plan.
  - intros init. apply initialize_keeps_plan.
  - intros user_input. apply process_user_input_keeps_plan.
  - intros init turns. apply plan_kept_from_planning.
Qed.

Lemma C5_plan_stored_and_kept_witness :
  (exists w',
     generate_technical_plan sample_env sample_requirements collecting_world
       = (w', Returns (plan_header +:+ "1. Parse the input" +:+ plan_footer))
     /\ current_plan (session_state w')
        = Some (Some (plan_header +:+ "1. Parse the input" +:+ plan_footer)))
  /\
  (exists w',
     generate_technical_plan failing_env sample_requirements collecting_world
       = (w', Returns (fallback_plan sample_requirements)) /\
     current_plan (session_state w')
       = Some (Some (fallback_plan sample_requirements))) /\
  keeps_plan planning_world
    (initialize_chat_session_state sample_init planning_world).1 /\
  keeps_plan planning_world
    (process_user_input sample_env "/code" planning_world).1 /\
  keeps_plan planning_world
    (run_turns [(sample_env, "thanks"); (failing_env, "/code");
                (sample_env, sample_requirements)] planning_world).
Proof.
  destruct (C5_plan_stored_and_kept sample_env collecting_world)
    as (Hstored & _).
  destruct (C5_plan_stored_and_kept failing_env collecting_world)
    as (_ & Hfallback & _).
  destruct (C5_plan_stored_and_kept sample_env planning_world)
    as (_ & _ & _ & _ & _ & _ & _ & Hinit & Hturn & Hturns).
  split; [|split; [|split; [|split]]].
  - apply Hstored. reflexivity.
  - apply (Hfallback sample_requirements
             (Exception "RuntimeError" "planner unavailable")); reflexivity.
  - apply Hinit.
    + exact sample_init_keeps.
    + vm_compute. eauto.
  - apply Hturn. vm_compute. intros [[=] _].
  - apply (Hturns sample_init).
    + exact sample_init_keeps.
    + exact planning_world_reachable.
    + left. vm_compute. reflexivity.
Defined.

(** ** The pipeline's result *)

(** C6. The value the pipeline returns is not looked at. Take two runs
    of [generate_code_from_plan] from the same world, with the key
    [current_plan] set, in which the pipeline call returns, one with
    [result1] and one with [result2]. When storing the archive succeeds
    in both, both return the success text and both have stored the same
    three members, built from the requirement text alone, each under the
    path of its own timestamp. And at the same time of the clock, with
    the same outcome of storing files and the same wording of messages,
    the two runs leave the same world behind and return the same text,
    also when storing fails. *)
Theorem C6_result_not_inspected E1 E2 w result1 result2 :
  execute_chat_based_planning_pipeline E1 (requirements_of w)
    = Returns result1 ->
  execute_chat_based_planning_pipeline E2 (requirements_of w)
    = Returns result2 ->
  let run1 := generate_code_from_plan E1 w in
  let run2 := generate_code_from_plan E2 w in
  (is_Some (current_plan (session_state w)) ->
   open_wb E1 (zip_path_at (datetime_now E1)) = None ->
   open_wb E2 (zip_path_at (datetime_now E2)) = None ->
   run1.2 = Returns code_generated_response /\
   run2.2 = Returns code_generated_response /\
   files run1.1 =
     <[zip_path_at (datetime_now E1) := project_files (requirements_of w)]>
       (files w) /\
   files run2.1 =
     <[zip_path_at (datetime_now E2) := project_files (requirements_of w)]>
       (files w) /\
   generated_code_path (session_state run1.1)
     = Some (Some (zip_path_at (datetime_now E1))) /\
   generated_code_path (session_state run2.1)
     = Some (Some (zip_path_at (datetime_now E2)))) /\
  (datetime_now E1 = datetime_now E2 ->
   (forall path, open_wb E1 path = open_wb E2 path) ->
   (forall e, message_of E1 e = message_of E2 e) ->
   run1 = run2).
Proof.
  intros H1 H2 run1 run2. subst run1 run2. split.
  - intros [plan Hp] Ho1 Ho2. rewrite !generate_code_from_plan_eq. simpl.
    rewrite (requirements_of_plan _ _ Hp) in *. rewrite Hp.
    rewrite H1, H2, Ho1, Ho2. simpl. repeat split.
  - intros Hnow Hopen Hmsg. rewrite !generate_code_from_plan_eq. simpl.
    unfold requirements_of in H1, H2.
    assert (Hstr : forall e, apology E1 e = apology E2 e).
    { intros e. unfold apology, str. rewrite Hmsg. reflexivity. }
    destruct (current_plan (session_state w)) as [plan|];
      [|rewrite Hstr; reflexivity].
    rewrite H1, H2, Hnow, Hopen.
    destruct (open_wb E2 _) as [e|]; [|reflexivity].
    rewrite Hstr. reflexivity.
Qed.

Lemma C6_result_not_inspected_witness :
  let E2 :=
    {| run_chat_planning_agent := run_chat_planning_agent sample_env;
       execute_chat_based_planning_pipeline :=
         fun _ => Returns (PipelineResult "another result");
       datetime_now :=
         {| year := 2025; month := 3; day := 9;
            hour := 7; minute := 6; second := 0 |};
       open_wb := fun _ => None;
       unicode_lower := fun s => s;
       message_of := sample_message_of |} in
  let run1 := generate_code_from_plan sample_env planning_world in
  let run2 := generate_code_from_plan E2 planning_world in
  run1.2 = Returns code_generated_response /\
  run2.2 = Returns code_generated_response /\
  files run1.1 =
    <[zip_path_at (datetime_now sample_env)
        := project_files (requirements_of planning_world)]>
      (files planning_world) /\
  files run2.1 =
    <[zip_path_at (datetime_now E2)
        := project_files (requirements_of planning_world)]>
      (files planning_world) /\
  generated_code_path (session_state run1.1)
    = Some (Some (zip_path_at (datetime_now sample_env))) /\
  generated_code_path (session_state run2.1)
    = Some (Some (zip_path_at (datetime_now E2))).
Proof.
  intros E2.
  destruct (C6_result_not_inspected sample_env E2 planning_world
              (PipelineResult "done") (PipelineResult "another result"))
    as [Hsame _]; [reflexivity|reflexivity|].
  apply Hsame; [vm_compute; eauto|reflexivity|reflexivity].
Defined.

(** ** Calls into the engine *)

(** C7, as amended. A call of [process_user_input] makes at most one
    call into the engine. It makes exactly one in two cases: to
    [run_chat_planning_agent] when the stage is collecting_requirements
    and the input is longer than 50 characters, and to
    [execute_chat_based_planning_pipeline] when the stage is planning and
    the input, stripped and lowercased, is "/code". In every other case
    (the greeting and generating stages, a short input, any other text in
    the planning stage) it makes none. *)
Theorem C7_at_most_one_call init w E user_input :
  keeps_chat_keys init -> reachable init w ->
  exists new : list engine_call,
    engine_calls (process_user_input E user_input w).1
      = engine_calls w ++ new /\
    (new = [] \/
     new = [Call_run_chat_planning_agent user_input] \/
     new = [Call_execute_chat_based_planning_pipeline (requirements_of w)
              true]) /\
    (new = [Call_run_chat_planning_agent user_input] <->
     chat_stage (session_state w) = Some "collecting_requirements" /\
     50 < len user_input) /\
    (new = [Call_execute_chat_based_planning_pipeline (requirements_of w)
              true] <->
     chat_stage (session_state w) = Some "planning" /\
     lower (unicode_lower E) (strip user_input) = "/code").
Proof.
  intros Hk Hr.
  pose proof (reachable_turn_run init E user_input w Hk Hr) as Ht.
  destruct (process_user_input E user_input w) as [w' r]. simpl in *.
  destruct Ht;
    match goal with
    | H : engine_calls _ = engine_calls w |- _ =>
        exists []; rewrite app_nil_r
    | H : engine_calls _ = engine_calls w ++ ?l |- _ => exists l
    end.
  all: split; [assumption|].
  all: split; [tauto|].
  all: split; split; try discriminate; try tauto.
  all: intros [Hs ?]; try congruence; try lia.
Qed.

Lemma C7_at_most_one_call_witness :
  exists new : list engine_call,
    engine_calls (process_user_input sample_env "/code" planning_world).1
      = engine_calls planning_world ++ new /\
    (new = [] \/
     new = [Call_run_chat_planning_agent "/code"] \/
     new = [Call_execute_chat_based_planning_pipeline
              (requirements_of planning_world) true]) /\
    (new = [Call_run_chat_planning_agent "/code"] <->
     chat_stage (session_state planning_world)
       = Some "collecting_requirements" /\
     50 < len "/code") /\
    (new = [Call_execute_chat_based_planning_pipeline
              (requirements_of planning_world) true] <->
     chat_stage (session_state planning_world) = Some "planning" /\
     lower (unicode_lower sample_env) (strip "/code") = "/code").
Proof.
  apply (C7_at_most_one_call sample_init planning_world sample_env "/code").
  - exact sample_init_keeps.
  - exact planning_world_reachable.
Defined.

(** C7 as it is written fails: in the greeting stage a call of
    [process_user_input] returns without any call into the engine, so
    the calls made are not one more than before. *)
Lemma C7_counterexample :
  chat_stage (session_state first_visit) = Some "greeting" /\
  (process_user_input sample_env "hello" first_visit).2 = Returns tt /\
  engine_calls (process_user_input sample_env "hello" first_visit).1
    = engine_calls first_visit /\
  ~ exists c,
      engine_calls (process_user_input sample_env "hello" first_visit).1
        = engine_calls first_visit ++ [c].
Proof.
  split; [reflexivity|]. split; [reflexivity|]. split; [reflexivity|].
  intros [c Hc]. vm_compute in Hc. discriminate Hc.
Qed.

(** ** Invariants of the session *)

(** C8. In every reachable world whose stage is planning or generating
    the session's [current_plan] is a plan text, not None. The stage gets
    to planning only through [generate_technical_plan], and that function,
    whether the planning agent answers or raises an instance of
    [Exception], leaves the plan text it returns in [current_plan]; it
    fails to return only when the planning agent raised another kind of
    exception, and then the session, and with it the stage, is as
    before. *)
Theorem C8_plan_present init w :
  keeps_chat_keys init -> reachable init w ->
  (chat_stage (session_state w) = Some "planning" \/
   chat_stage (session_state w) = Some "generating" ->
   exists plan, current_plan (session_state w) = Some (Some plan)) /\
  (forall E user_input,
     chat_stage (session_state w) <> Some "planning" ->
     chat_stage (session_state (process_user_input E user_input w).1)
       = Some "planning" ->
     exists w1 plan,
       engine_calls (process_user_input E user_input w).1
         = engine_calls w ++ [Call_run_chat_planning_agent user_input] /\
       (generate_technical_plan E user_input w1).2 = Returns plan /\
       current_plan (session_state (process_user_input E user_input w).1)
         = Some (Some plan)) /\
  (forall E user_requirements w0,
     let run := generate_technical_plan E user_requirements w0 in
     (exists plan,
        run.2 = Returns plan /\
        current_plan (session_state run.1) = Some (Some plan)) \/
     (exists e,
        run_chat_planning_agent E user_requirements = Raises e /\
        is_Exception e = false /\
        run.2 = Raises e /\
        session_state run.1 = session_state w0)).
Proof.
  intros Hk Hr. split; [|split].
  - apply (ok_plan _ (reachable_ok _ _ Hk Hr)).
  - intros E user_input Hnot Hplanning.
    pose proof (reachable_turn_run init E user_input w Hk Hr) as Ht.
    destruct (process_user_input E user_input w) as [w' r]. simpl in *.
    destruct Ht; unfold keeps_stage in *; try congruence.
    exists w, plan. rewrite generate_technical_plan_eq. simpl.
    destruct (run_chat_planning_agent E user_input) as [answer|e].
    + repeat split; simpl; congruence.
    + match goal with
      | H : forall _, _ = _ -> is_Exception _ = true |- _ =>
          rewrite (H e eq_refl)
      end.
      repeat split; simpl; congruence.
  - intros E user_requirements w0 run. subst run.
    rewrite generate_technical_plan_eq. simpl.
    destruct (run_chat_planning_agent E user_requirements) as [answer|e];
      [|destruct (is_Exception e) eqn:He].
    + left. eexists. split; reflexivity.
    + left. eexists. split; reflexivity.
    + right. exists e. repeat split. exact He.
Qed.

Lemma C8_plan_present_witness :
  exists plan, current_plan (session_state planning_world) = Some (Some plan).
Proof.
  destruct (C8_plan_present sample_init planning_world) as [Hplan _].
  - exact sample_init_keeps.
  - exact planning_world_reachable.
  - apply Hplan. left. vm_compute. reflexivity.
Defined.

(** C9. In every reachable world [code_generated] and
    [generated_code_path] agree: the flag is True exactly when the path is
    not None (both keys are set, the flag to a boolean). A call of
    [generate_code_from_plan] that answers with the success text has
    set the flag to True and the path to the archive; one that answers
    with anything else, an apology, leaves both as they were. *)
Theorem C9_flag_and_path_agree init w :
  keeps_chat_keys init -> reachable init w ->
  (exists flag path,
     code_generated (session_state w) = Some flag /\
     generated_code_path (session_state w) = Some path /\
     (flag = true <-> path <> None)) /\
  (forall E,
     let run := generate_code_from_plan E w in
     (run.2 = Returns code_generated_response /\
      code_generated (session_state run.1) = Some true /\
      generated_code_path (session_state run.1)
        = Some (Some (zip_path_at (datetime_now E)))) \/
     (run.2 <> Returns code_generated_response /\
      code_generated (session_state run.1) = code_generated (session_state w) /\
      generated_code_path (session_state run.1)
        = generated_code_path (session_state w))).
Proof.
  intros Hk Hr. split.
  - destruct (ok_code _ (reachable_ok _ _ Hk Hr)) as [[-> ->]|[-> [p ->]]].
    + exists false, None. repeat split; congruence.
    + exists true, (Some p). repeat split; congruence.
  - intros E run. subst run. rewrite generate_code_from_plan_eq. simpl.
    assert (Hne : forall e,
               (if is_Exception e then @Returns string (apology E e)
                else Raises e) <> Returns code_generated_response).
    { intros e H. destruct (is_Exception e); [|discriminate].
      apply Returns_inj, apology_not_success in H. exact H. }
    destruct (current_plan (session_state w)) as [plan|];
      [destruct (execute_chat_based_planning_pipeline E _);
       [destruct (open_wb E _)|]|]; simpl; auto.
Qed.

Lemma C9_flag_and_path_agree_witness :
  exists flag path,
    code_generated (session_state generating_world) = Some flag /\
    generated_code_path (session_state generating_world) = Some path /\
    (flag = true <-> path <> None).
Proof.
  destruct (C9_flag_and_path_agree sample_init generating_world) as [H _].
  - exact sample_init_keeps.
  - exact generating_world_reachable.
  - exact H.
Defined.

(** ** The messages *)

(** C10, as amended. The message list only grows at its end. From a
    reachable world a call of [process_user_input] that returns has
    appended exactly two entries, the user's text with role "user" and
    then one entry with role "assistant". A call does not return only
    when the planning agent, called in the collecting_requirements stage
    on an input longer than 50 characters, raises an exception that is
    no instance of [Exception]: the call then raises that exception and
    has appended the user's text alone. In both cases the entries
    already there stay in place. Running the initialisation again keeps
    the list, the greeting keeps it or appends to it, [add_message]
    appends one entry, and the two generators leave it as it is. *)
Theorem C10_messages_append_only init w :
  keeps_chat_keys init -> reachable init w ->
  exists msgs,
    messages (session_state w) = Some msgs /\
    (forall E user_input,
       let run := process_user_input E user_input w in
       (run.2 = Returns tt /\
        exists reply,
          messages (session_state run.1)
            = Some (msgs ++ [Message "user" user_input;
                             Message "assistant" reply])) \/
       (exists e,
          run.2 = Raises e /\
          is_Exception e = false /\
          run_chat_planning_agent E user_input = Raises e /\
          chat_stage (session_state w) = Some "collecting_requirements" /\
          50 < len user_input /\
          messages (session_state run.1)
            = Some (msgs ++ [Message "user" user_input]))) /\
    messages (session_state (initialize_chat_session_state init w).1)
      = Some msgs /\
    (exists more,
       messages (session_state (show_initial_greeting w).1)
         = Some (msgs ++ more)) /\
    (forall role content,
       messages (session_state (add_message role content w).1)
         = Some (msgs ++ [Message role content])) /\
    (forall E user_requirements,
       messages (session_state (generate_technical_plan E user_requirements w).1)
         = Some msgs) /\
    (forall E,
       messages (session_state (generate_code_from_plan E w).1) = Some msgs).
Proof.
  intros Hk Hr. pose proof (reachable_ok _ _ Hk Hr) as Hok.
  destruct (ok_messages _ Hok) as [msgs Hm]. exists msgs.
  split; [exact Hm|]. split; [|split; [|split; [|split; [|split]]]].
  - intros E user_input run. subst run.
    pose proof (reachable_turn_run init E user_input w Hk Hr) as Ht.
    destruct (process_user_input E user_input w) as [w' r]. simpl in *.
    destruct r as [[]|e].
    + left. split; [reflexivity|].
      assert (Happ : exists reply, appended w w' user_input reply)
        by (inversion Ht; eauto).
      destruct Happ as (reply & msgs' & Hm' & Happ). exists reply.
      congruence.
    + right. exists e.
      apply turn_raises in Ht
        as (Hs & Hlen & Hrun & He & _ & _ & _ & _ & msgs' & Hm' & Happ).
      repeat split; try assumption. congruence.
  - rewrite initialize_again by assumption. simpl.
    specialize (Hk (session_state w)). unfold chat_keys in Hk. congruence.
  - rewrite (show_initial_greeting_eq _ _ Hm). simpl.
    destruct msgs; [exists [Message "assistant" get_assistant_greeting]
                   |exists []; rewrite app_nil_r]; auto.
  - intros role content. rewrite (add_message_eq _ _ _ _ Hm). reflexivity.
  - intros E user_requirements. rewrite generate_technical_plan_eq. simpl.
    destruct (run_chat_planning_agent E user_requirements) as [r|e];
      [|destruct (is_Exception e)]; exact Hm.
  - intros E. rewrite generate_code_from_plan_eq. simpl.
    destruct (current_plan (session_state w)) as [plan|];
      [destruct (execute_chat_based_planning_pipeline E _);
       [destruct (open_wb E _)|]|]; exact Hm.
Qed.

Lemma C10_messages_append_only_witness :
  exists msgs,
    messages (session_state collecting_world) = Some msgs /\
    (forall E user_input,
       let run := process_user_input E user_input collecting_world in
       (run.2 = Returns tt /\
        exists reply,
          messages (session_state run.1)
            = Some (msgs ++ [Message "user" user_input;
                             Message "assistant" reply])) \/
       (exists e,
          run.2 = Raises e /\
          is_Exception e = false /\
          run_chat_planning_agent E user_input = Raises e /\
          chat_stage (session_state collecting_world)
            = Some "collecting_requirements" /\
          50 < len user_input /\
          messages (session_state run.1)
            = Some (msgs ++ [Message "user" user_input]))) /\
    messages
      (session_state
         (initialize_chat_session_state sample_init collecting_world).1)
      = Some msgs /\
    (exists more,
       messages (session_state (show_initial_greeting collecting_world).1)
         = Some (msgs ++ more)) /\
    (forall role content,
       messages (session_state (add_message role content collecting_world).1)
         = Some (msgs ++ [Message role content])) /\
    (forall E user_requirements,
       messages
         (session_state
            (generate_technical_plan E user_requirements collecting_world).1)
         = Some msgs) /\
    (forall E,
       messages (session_state (generate_code_from_plan E collecting_world).1)
         = Some msgs).
Proof.
  apply (C10_messages_append_only sample_init collecting_world).
  - exact sample_init_keeps.
  - exact collecting_world_reachable.
Defined.

(** C10 as it is written fails: a turn can append one entry only. In
    the collecting_requirements stage, on a requirement text longer than
    50 characters, a planning agent whose call is cancelled ends the turn
    with the cancellation: the user's text was appended, no assistant
    entry follows it, and the typing indicator stays switched on. *)
Lemma C10_counterexample :
  let run :=
    process_user_input cancelled_env sample_requirements collecting_world in
  reachable sample_init collecting_world /\
  run.2 = Raises (BaseException "CancelledError" "") /\
  (exists msgs,
     messages (session_state collecting_world) = Some msgs /\
     messages (session_state run.1)
       = Some (msgs ++ [Message "user" sample_requirements])) /\
  assistant_typing (session_state run.1) = Some true.
Proof.
  split; [exact collecting_world_reachable|].
  split; [vm_compute; reflexivity|]. split; [|vm_compute; reflexivity].
  eexists. split; vm_compute; reflexivity.
Qed.

(** * Further properties of the page *)

(** ** Where a conversation stands *)

Lemma requirements_of_keeps w w' :
  keeps_plan w w' -> requirements_of w' = requirements_of w.
Proof. unfold keeps_plan, requirements_of. intros ->. reflexivity. Qed.

Lemma plan_from_keeps requirements w w' :
  keeps_plan w w' -> plan_from requirements w -> plan_from requirements w'.
Proof. unfold keeps_plan, plan_from. intros ->. auto. Qed.

Lemma conversation_state_ext w w' :
  keeps_stage w w' -> keeps_plan w w' ->
  code_generated (session_state w') = code_generated (session_state w) ->
  generated_code_path (session_state w')
    = generated_code_path (session_state w) ->
  engine_calls w' = engine_calls w ->
  conversation_state w -> conversation_state w'.
Proof.
  unfold keeps_stage. intros Hs Hp Hg Hpath Hc Hw.
  pose proof (requirements_of_keeps _ _ Hp) as Hreq.
  pose proof (plan_from_keeps) as Hfrom.
  destruct Hw;
    [ apply at_greeting | eapply at_collecting
    | eapply at_planning | eapply at_generating ];
    rewrite ?Hs, ?Hc, ?Hg, ?Hpath, ?Hreq; eauto.
Qed.

Lemma plan_text_truthy requirements answer :
  truthy (match answer with
          | Returns plan_result => format_plan plan_result
          | Raises _ => fallback_plan requirements
          end) = true.
Proof. destruct answer; reflexivity. Qed.

Lemma map_snoc {A B} (f : A -> B) l x : map f (l ++ [x]) = map f l ++ [f x].
Proof. apply map_app. Qed.

Lemma turn_conversation_state E user_input w w' r :
  conversation_state w -> turn E user_input w w' r -> conversation_state w'.
Proof.
  intros Hw Ht.
  destruct Ht; unfold keeps_stage, keeps_code in *;
    repeat match goal with H : _ /\ _ |- _ => destruct H end;
    destruct Hw; try congruence.
  - apply (at_collecting _ []); simpl; try congruence. constructor.
  - eapply at_collecting; try eassumption; congruence.
  - apply (at_planning _ interrupted user_input); try congruence.
    + apply Forall_app. split; [assumption|]. repeat constructor. assumption.
    + rewrite map_snoc. congruence.
    + exists plan. split; [assumption|]. subst plan. split.
      * apply plan_text_truthy.
      * destruct (run_chat_planning_agent E user_input); eauto.
  - apply (at_collecting _ (interrupted ++ [user_input])); try congruence.
    + apply Forall_app. split; [assumption|]. repeat constructor. assumption.
    + rewrite map_snoc. congruence.
  - eapply at_planning; try eassumption; try congruence.
    eapply plan_from_keeps; eassumption.
  - eapply at_generating; try eassumption; try congruence.
    + rewrite (requirements_of_keeps w w') by assumption. congruence.
    + eapply plan_from_keeps; eassumption.
  - eapply at_generating; try eassumption; try congruence.
    + rewrite (requirements_of_keeps w w') by assumption. congruence.
    + eapply plan_from_keeps; eassumption.
Qed.

Lemma reachable_conversation_state init w :
  keeps_chat_keys init -> reachable init w -> conversation_state w.
Proof.
  intros Hk Hr.
  induction Hr as [fs|w fs Hr IH|w Hr IH|w Hr IH|w E user_input Hr IH].
  - specialize (Hk empty_session). unfold chat_keys in Hk.
    apply at_greeting;
      unfold initialize_chat_session_state, bind, if_not_in, setattr; simpl;
      destruct (init empty_session) as [m cp cg gp st ty pr]; simpl in Hk;
      injection Hk as -> -> -> -> ->; reflexivity.
  - apply (conversation_state_ext w); try reflexivity. exact IH.
  - rewrite initialize_again by eauto using reachable_ok. simpl.
    pose proof (Hk (session_state w)) as [= _ Hp Hg Hpath Hs].
    apply (conversation_state_ext w); try assumption. reflexivity.
  - destruct (ok_messages _ (reachable_ok _ _ Hk Hr)) as [msgs Hm].
    rewrite (show_initial_greeting_eq _ _ Hm). simpl.
    destruct msgs; [|exact IH].
    apply (conversation_state_ext w); try reflexivity. exact IH.
  - pose proof (reachable_turn_run init E user_input w Hk Hr) as Ht.
    exact (turn_conversation_state _ _ _ _ _ IH Ht).
Qed.

(** X1. The stage tells which calls were made into the engine since
    the first visit. None in the greeting stage. In the
    collecting_requirements stage only calls of
    [run_chat_planning_agent] that ended their turn with an exception.
    In the planning stage such calls, then the call of
    [run_chat_planning_agent] that gave the plan. In the generating stage
    those, then one call of [execute_chat_based_planning_pipeline] with
    the text of the current plan: the pipeline is called at most once in
    a session, and last. Every call of the planning agent was given a
    requirement text longer than 50 characters. *)
Theorem X1_engine_calls_by_stage init w :
  keeps_chat_keys init -> reachable init w ->
  exists planned : list string,
    Forall (fun requirements => 50 < len requirements) planned /\
    (chat_stage (session_state w) = Some "greeting" -> planned = []) /\
    (chat_stage (session_state w) = Some "planning" \/
     chat_stage (session_state w) = Some "generating" ->
     exists interrupted requirements,
       planned = interrupted ++ [requirements] /\
       plan_from requirements w) /\
    (chat_stage (session_state w) <> Some "generating" ->
     engine_calls w = map Call_run_chat_planning_agent planned) /\
    (chat_stage (session_state w) = Some "generating" ->
     engine_calls w =
       map Call_run_chat_planning_agent planned
       ++ [Call_execute_chat_based_planning_pipeline (requirements_of w)
             true]).
Proof.
  intros Hk Hr.
  destruct (reachable_conversation_state init w Hk Hr) as
    [Hs Hc _ _|interrupted Hs Hlen Hc _ _
    |interrupted req Hs Hlen Hc Hfrom _ _
    |interrupted req Hs Hlen Hc Hfrom _ _].
  - exists []. rewrite Hs, Hc. repeat split; try constructor.
    + intros [[=]|[=]].
    + intros [=].
  - exists interrupted. rewrite Hs, Hc. repeat split; try assumption.
    + intros [=].
    + intros [[=]|[=]].
    + intros [=].
  - exists (interrupted ++ [req]). rewrite Hs, Hc.
    repeat split; try assumption.
    + intros [=].
    + intros _. eauto.
    + intros [=].
  - exists (interrupted ++ [req]). rewrite Hs, Hc.
    repeat split; try assumption.
    + intros [=].
    + intros _. eauto.
    + intros H. destruct H. reflexivity.
Qed.

Lemma X1_engine_calls_by_stage_witness :
  exists planned : list string,
    Forall (fun requirements => 50 < len requirements) planned /\
    engine_calls generating_world =
      map Call_run_chat_planning_agent planned
      ++ [Call_execute_chat_based_planning_pipeline
            (requirements_of generating_world) true].
Proof.
  destruct (X1_engine_calls_by_stage sample_init generating_world)
    as (planned & Hlen & _ & _ & _ & H).
  - exact sample_init_keeps.
  - exact generating_world_reachable.
  - exists planned. split; [exact Hlen|]. apply H. vm_compute. reflexivity.
Defined.

(** X2. The generating stage is final. From a reachable world in that
    stage, no sequence of further inputs changes the stage, the plan, the
    code-generated flag, the archive path, the files or the calls made
    into the engine: the code generation, tried once, is not tried
    again. *)
Theorem X2_generating_is_final init w turns :
  keeps_chat_keys init -> reachable init w ->
  chat_stage (session_state w) = Some "generating" ->
  keeps_stage w (run_turns turns w) /\
  keeps_plan w (run_turns turns w) /\
  keeps_code w (run_turns turns w) /\
  engine_calls (run_turns turns w) = engine_calls w.
Proof.
  intros Hk. revert w.
  induction turns as [|[E user_input] turns IH]; intros w Hr Hs.
  - repeat split.
  - simpl.
    pose proof (reachable_turn_run init E user_input w Hk Hr) as Ht.
    pose proof (reachable_turn _ _ E user_input Hr) as Hr'.
    specialize (IH (process_user_input E user_input w).1 Hr').
    destruct (process_user_input E user_input w) as [w1 r]. simpl in *.
    assert (H1 : keeps_stage w w1 /\ keeps_plan w w1 /\ keeps_code w w1 /\
                 engine_calls w1 = engine_calls w)
      by (destruct Ht; try congruence; auto).
    destruct H1 as (Hs1 & Hp1 & (Hg1 & Hpath1 & Hf1) & Hc1).
    destruct IH as (Hs2 & Hp2 & (Hg2 & Hpath2 & Hf2) & Hc2).
    { unfold keeps_stage in Hs1. congruence. }
    unfold keeps_stage, keeps_plan, keeps_code in *.
    repeat split; congruence.
Qed.

Lemma X2_generating_is_final_witness :
  let turns := [(sample_env, "/code"); (failing_env, sample_requirements)] in
  keeps_stage generating_world (run_turns turns generating_world) /\
  keeps_plan generating_world (run_turns turns generating_world) /\
  keeps_code generating_world (run_turns turns generating_world) /\
  engine_calls (run_turns turns generating_world)
    = engine_calls generating_world.
Proof.
  apply (X2_generating_is_final sample_init generating_world).
  - exact sample_init_keeps.
  - exact generating_world_reachable.
  - vm_compute. reflexivity.
Defined.

(** ** Paths *)

Lemma rfind_sep_ge s : (-1 <= rfind_sep s)%Z.
Proof.
  induction s as [|a s IH]; simpl; [lia|].
  destruct (0 <=? rfind_sep s)%Z eqn:H; [lia|].
  destruct (Ascii.eqb a "/"); lia.
Qed.

Lemma rfind_sep_cons c s :
  rfind_sep (String c s) = (-1)%Z <->
  Ascii.eqb c "/" = false /\ rfind_sep s = (-1)%Z.
Proof.
  pose proof (rfind_sep_ge s) as Hge.
  cbn [rfind_sep].
  destruct (0 <=? rfind_sep s)%Z eqn:H.
  - apply Z.leb_le in H. split; [lia|]. intros [_ ?]. lia.
  - apply Z.leb_gt in H.
    destruct (Ascii.eqb c "/"); split.
    + intros [=].
    + intros [[=] _].
    + intros _. split; [reflexivity|lia].
    + reflexivity.
Qed.

Lemma rfind_sep_app_none a b :
  rfind_sep a = (-1)%Z -> rfind_sep b = (-1)%Z ->
  rfind_sep (a +:+ b) = (-1)%Z.
Proof.
  induction a as [|c a IH]; intros Ha Hb; [exact Hb|].
  apply rfind_sep_cons in Ha as [Hc Ha].
  change (String c a +:+ b) with (String c (a +:+ b)).
  apply rfind_sep_cons. auto.
Qed.

Lemma digit_not_sep d : Ascii.eqb (digit d) "/" = false.
Proof.
  unfold digit.
  pose proof (Nat.mod_upper_bound d 10 ltac:(lia)) as Hlt.
  destruct (d mod 10) as [|[|[|[|[|[|[|[|[|[|k]]]]]]]]]];
    try reflexivity; lia.
Qed.

Lemma rfind_sep_two_digits n : rfind_sep (two_digits n) = (-1)%Z.
Proof.
  unfold two_digits. cbn [rfind_sep]. rewrite !digit_not_sep. reflexivity.
Qed.

Lemma rfind_sep_strftime now : rfind_sep (strftime_Ymd_HMS now) = (-1)%Z.
Proof.
  unfold strftime_Ymd_HMS.
  repeat (apply rfind_sep_app_none;
          [first [apply rfind_sep_two_digits | reflexivity]|]).
  apply rfind_sep_two_digits.
Qed.

Lemma rfind_sep_String c s :
  rfind_sep (String c s) =
    if (0 <=? rfind_sep s)%Z then (rfind_sep s + 1)%Z
    else if Ascii.eqb c "/" then 0%Z else (-1)%Z.
Proof. reflexivity. Qed.

Lemma rfind_sep_app_sep a b :
  rfind_sep b = (-1)%Z ->
  rfind_sep (a +:+ String "/" b) = Z.of_nat (String.length a).
Proof.
  intros Hb. induction a as [|c a IH].
  - change ("" +:+ String "/" b) with (String "/" b).
    rewrite rfind_sep_String, Hb. reflexivity.
  - change (String c a +:+ String "/" b) with (String c (a +:+ String "/" b)).
    rewrite rfind_sep_String, IH.
    change (String.length (String c a)) with (S (String.length a)).
    destruct (0 <=? Z.of_nat (String.length a))%Z eqn:H; [lia|].
    apply Z.leb_gt in H. lia.
Qed.

Lemma slice_from_app a b : slice_from (String.length a) (a +:+ b) = b.
Proof. induction a as [|c a IH]; [destruct b; reflexivity|exact IH]. Qed.

Lemma slice_to_app a b : slice_to (String.length a) (a +:+ b) = a.
Proof.
  induction a as [|c a IH]; [destruct b; reflexivity|].
  simpl. f_equal. exact IH.
Qed.

Lemma append_sep a b : a +:+ String "/" b = (a +:+ "/") +:+ b.
Proof.
  induction a as [|c a IH]; [reflexivity|].
  change (String c (a +:+ String "/" b) = String c ((a +:+ "/") +:+ b)).
  rewrite IH. reflexivity.
Qed.

Lemma length_append_sep a : String.length (a +:+ "/") = S (String.length a).
Proof.
  induction a as [|c a IH]; [reflexivity|].
  change (S (String.length (a +:+ "/")) = S (S (String.length a))).
  rewrite IH. reflexivity.
Qed.

Lemma basename_app_sep a b :
  rfind_sep b = (-1)%Z -> os_path_basename (a +:+ String "/" b) = b.
Proof.
  intros Hb. unfold os_path_basename. rewrite (rfind_sep_app_sep a b Hb).
  replace (Z.to_nat (Z.of_nat (String.length a) + 1))
    with (String.length (a +:+ "/")) by (rewrite length_append_sep; lia).
  rewrite (append_sep a b). apply slice_from_app.
Qed.

Lemma all_sep_app_sep a :
  a <> "" -> endswith_sep a = false -> all_sep (a +:+ "/") = false.
Proof.
  induction a as [|c a IH]; [congruence|]. intros _ He.
  destruct a as [|c' a].
  - change (Ascii.eqb c "/" = false) in He.
    change (Ascii.eqb c "/" && all_sep "/" = false).
    rewrite He. reflexivity.
  - change (all_sep (String c (String c' a +:+ "/")) = false).
    cbn [all_sep]. rewrite IH; [apply andb_false_r|congruence|exact He].
Qed.

Lemma rstrip_sep_app_sep a :
  a <> "" -> endswith_sep a = false -> rstrip_sep (a +:+ "/") = a.
Proof.
  induction a as [|c a IH]; [congruence|]. intros _ He.
  destruct a as [|c' a].
  - change (Ascii.eqb c "/" = false) in He.
    change ((if Ascii.eqb c "/" then "" else String c "") = String c "").
    rewrite He. reflexivity.
  - change (rstrip_sep (String c (String c' a +:+ "/")) = String c (String c' a)).
    cbn [rstrip_sep]. rewrite IH; [reflexivity|congruence|exact He].
Qed.

Lemma dirname_app_sep a b :
  a <> "" -> endswith_sep a = false -> rfind_sep b = (-1)%Z ->
  os_path_dirname (a +:+ String "/" b) = a.
Proof.
  intros Ha He Hb. unfold os_path_dirname.
  rewrite (rfind_sep_app_sep a b Hb).
  replace (Z.to_nat (Z.of_nat (String.length a) + 1))
    with (String.length (a +:+ "/")) by (rewrite length_append_sep; lia).
  rewrite (append_sep a b), slice_to_app.
  rewrite (all_sep_app_sep a Ha He).
  assert (Ht : truthy (a +:+ "/") = true) by (destruct a; reflexivity).
  rewrite Ht. apply rstrip_sep_app_sep; assumption.
Qed.

Lemma endswith_sep_split a :
  endswith_sep a = true -> exists a0, a = a0 +:+ "/".
Proof.
  induction a as [|c a IH]; [discriminate|].
  destruct a as [|c' a].
  - cbn. intros H. apply Ascii.eqb_eq in H as ->. exists "". reflexivity.
  - intros H. destruct (IH H) as [a0 ->]. exists (String c a0). reflexivity.
Qed.

Lemma zip_path_basename now :
  os_path_basename (zip_path_at now)
    = "generated_code_" +:+ strftime_Ymd_HMS now +:+ ".zip".
Proof.
  rewrite zip_path_at_eq.
  change ("/tmp/generated_code_" +:+ strftime_Ymd_HMS now +:+ ".zip")
    with ("/tmp" +:+
          String "/" ("generated_code_" +:+ strftime_Ymd_HMS now +:+ ".zip")).
  apply basename_app_sep.
  apply rfind_sep_app_none; [reflexivity|].
  apply rfind_sep_app_none; [apply rfind_sep_strftime|reflexivity].
Qed.

Lemma zip_path_dirname now : os_path_dirname (zip_path_at now) = "/tmp".
Proof.
  rewrite zip_path_at_eq.
  change ("/tmp/generated_code_" +:+ strftime_Ymd_HMS now +:+ ".zip")
    with ("/tmp" +:+
          String "/" ("generated_code_" +:+ strftime_Ymd_HMS now +:+ ".zip")).
  apply dirname_app_sep; [discriminate|reflexivity|].
  apply rfind_sep_app_none; [reflexivity|].
  apply rfind_sep_app_none; [apply rfind_sep_strftime|reflexivity].
Qed.

Lemma startswith_sep_none b : rfind_sep b = (-1)%Z -> startswith_sep b = false.
Proof.
  destruct b as [|c b]; [reflexivity|].
  intros H. apply rfind_sep_cons in H as [Hc _].
  destruct c as [[] [] [] [] [] [] [] []]; try reflexivity; discriminate Hc.
Qed.

(** Joining a directory and a file name and taking the base name gives
    the file name back, whatever the directory, as long as the name holds
    no "/". *)
Lemma basename_of_join a b :
  rfind_sep b = (-1)%Z -> os_path_basename (os_path_join a b) = b.
Proof.
  intros Hb. unfold os_path_join. rewrite (startswith_sep_none b Hb).
  destruct a as [|c a].
  - change (os_path_basename b = b). unfold os_path_basename. rewrite Hb.
    destruct b; reflexivity.
  - change (negb (truthy (String c a))) with false. rewrite orb_false_l.
    destruct (endswith_sep (String c a)) eqn:He.
    + destruct (endswith_sep_split _ He) as [a0 Ha]. rewrite Ha.
      rewrite <- (append_sep a0 b). apply basename_app_sep, Hb.
    + change ("/" +:+ b) with (String "/" b). apply basename_app_sep, Hb.
Qed.

Example basename_of_join_tmp :
  os_path_basename (os_path_join "/tmp/" "generated_code_20250309_070559.zip")
    = "generated_code_20250309_070559.zip".
Proof. apply basename_of_join. vm_compute. reflexivity. Qed.

(** X3. Whatever the clock shows, the archive path lies directly under
    [/tmp]: its directory is "/tmp" and its base name, the file name the
    download button offers, is generated_code_<timestamp>.zip. *)
Theorem X3_zip_path_parts now :
  os_path_dirname (zip_path_at now) = "/tmp" /\
  os_path_basename (zip_path_at now)
    = "generated_code_" +:+ strftime_Ymd_HMS now +:+ ".zip".
Proof. split; [apply zip_path_dirname|apply zip_path_basename]. Qed.

Lemma reachable_no_archive init w :
  keeps_chat_keys init -> reachable init w ->
  code_generated (session_state w) = Some false /\
  generated_code_path (session_state w) = Some None.
Proof.
  intros Hk Hr.
  destruct (reachable_conversation_state init w Hk Hr); auto.
Qed.

(** X4. On the page the code generation never succeeds.
    [process_user_input] runs inside the event loop of [asyncio.run], so
    the [asyncio.run] call of [generate_code_from_plan] raises a
    RuntimeError before the pipeline starts, and the function catches
    it. In a reachable world in the planning stage the turn with the
    command returns, its reply is the apology for that error, the stage
    moves to generating, and nothing is stored: whatever the pipeline
    would answer plays no part. So in every reachable world the
    code-generated flag is False, the archive path is None and the
    download button is not drawn. *)
Theorem X4_generation_fails_on_page init w :
  keeps_chat_keys init -> reachable init w ->
  code_generated (session_state w) = Some false /\
  generated_code_path (session_state w) = Some None /\
  download_button w = ([], Returns tt) /\
  (forall E user_input,
     chat_stage (session_state w) = Some "planning" ->
     lower (unicode_lower E) (strip user_input) = "/code" ->
     let run := process_user_input E user_input w in
     run.2 = Returns tt /\
     appended w run.1 user_input
       (apology_prefix
        +:+ "asyncio.run() cannot be called from a running event loop") /\
     chat_stage (session_state run.1) = Some "generating" /\
     keeps_plan w run.1 /\ keeps_code w run.1).
Proof.
  intros Hk Hr.
  destruct (reachable_no_archive init w Hk Hr) as [Hg Hp].
  split; [exact Hg|]. split; [exact Hp|]. split.
  { unfold download_button. rewrite Hg. reflexivity. }
  intros E user_input Hs Hc run. subst run.
  pose proof (reachable_turn_run init E user_input w Hk Hr) as Ht.
  destruct (process_user_input E user_input w) as [w' r]. simpl in *.
  destruct Ht; try congruence. auto.
Qed.

Lemma X4_generation_fails_on_page_witness :
  let run := process_user_input sample_env "/code" planning_world in
  run.2 = Returns tt /\
  appended planning_world run.1 "/code"
    (apology_prefix
     +:+ "asyncio.run() cannot be called from a running event loop") /\
  chat_stage (session_state run.1) = Some "generating" /\
  keeps_plan planning_world run.1 /\ keeps_code planning_world run.1.
Proof.
  destruct (X4_generation_fails_on_page sample_init planning_world)
    as (_ & _ & _ & H).
  - exact sample_init_keeps.
  - exact planning_world_reachable.
  - apply H; vm_compute; reflexivity.
Defined.

(** ** Missing keys and unknown stages *)

Lemma process_user_input_outcome E user_input w :
  match messages (session_state w), chat_stage (session_state w) with
  | None, _ =>
      process_user_input E user_input w
        = (w, Raises (AttributeError "messages"))
  | Some msgs, None =>
      process_user_input E user_input w =
        (with_session
           (set_assistant_typing true
              (set_messages (msgs ++ [Message "user" user_input])
                 (session_state w))) w,
         Raises (AttributeError "chat_stage"))
  | Some msgs, Some stage =>
      let run := process_user_input E user_input w in
      (run.2 = Returns tt /\
       assistant_typing (session_state run.1) = Some false) \/
      (exists e,
         run.2 = Raises e /\
         is_Exception e = false /\
         stage = "collecting_requirements" /\
         50 < len user_input /\
         run_chat_planning_agent E user_input = Raises e /\
         assistant_typing (session_state run.1) = Some true)
  end.
Proof.
  destruct w as [ss fs cs]. destruct ss as [m cp cg gp st ty pr].
  unfold process_user_input. simpl.
  destruct m as [msgs|]; [|reflexivity].
  destruct st as [s|]; [|reflexivity].
  unfold add_message, bind, getattr, setattr, ret. simpl.
  destruct (String.eqb s "greeting"); [left; split; reflexivity|].
  destruct (String.eqb_spec s "collecting_requirements") as [->|_].
  { destruct (Nat.ltb_spec 50 (len user_input)) as [Hlen|_];
      [|left; split; reflexivity].
    rewrite generate_technical_plan_eq. simpl.
    destruct (run_chat_planning_agent E user_input) as [r|e];
      [left; split; reflexivity|].
    destruct (is_Exception e) eqn:He; [left; split; reflexivity|].
    right. exists e. repeat split; assumption. }
  destruct (String.eqb s "planning").
  { destruct (String.eqb (lower (unicode_lower E) (strip user_input)) "/code");
      [|left; split; reflexivity].
    rewrite generate_code_from_plan_eq. simpl.
    destruct cp as [plan|]; left; split; reflexivity. }
  destruct (String.eqb s "generating"); left; split; reflexivity.
Qed.

(** X5. What a call of [process_user_input] needs. Without the key
    [messages] it raises AttributeError and changes nothing. With
    [messages] but without [chat_stage] it raises AttributeError after it
    has appended the user's text and switched the typing indicator on,
    and leaves both that way. With both keys set it returns, with the
    typing indicator switched off, in every case but one: the planning
    agent, called in the collecting_requirements stage on an input longer
    than 50 characters, raises an exception that is no instance of
    [Exception]; the call then ends with that exception and the typing
    indicator stays on. *)
Theorem X5_turn_needs_its_keys E user_input w :
  (messages (session_state w) = None ->
   process_user_input E user_input w
     = (w, Raises (AttributeError "messages"))) /\
  (forall msgs,
     messages (session_state w) = Some msgs ->
     chat_stage (session_state w) = None ->
     process_user_input E user_input w =
       (with_session
          (set_assistant_typing true
             (set_messages (msgs ++ [Message "user" user_input])
                (session_state w))) w,
        Raises (AttributeError "chat_stage"))) /\
  (is_Some (messages (session_state w)) ->
   is_Some (chat_stage (session_state w)) ->
   let run := process_user_input E user_input w in
   (run.2 = Returns tt /\
    assistant_typing (session_state run.1) = Some false) \/
   (exists e,
      run.2 = Raises e /\
      is_Exception e = false /\
      chat_stage (session_state w) = Some "collecting_requirements" /\
      50 < len user_input /\
      run_chat_planning_agent E user_input = Raises e /\
      assistant_typing (session_state run.1) = Some true)).
Proof.
  pose proof (process_user_input_outcome E user_input w) as H.
  destruct (messages (session_state w)) as [msgs|] eqn:Hm;
    [destruct (chat_stage (session_state w)) as [s|] eqn:Hs|].
  - split; [discriminate|]. split; [discriminate|].
    intros _ _. simpl in H.
    destruct H as [H|(e & H1 & H2 & -> & H3 & H4 & H5)]; [left; exact H|].
    right. exists e. repeat split; assumption.
  - rewrite H. split; [discriminate|]. split.
    + intros msgs' [= <-] _. reflexivity.
    + intros _ [s [=]].
  - rewrite H. split; [reflexivity|]. split; [discriminate|].
    intros [msgs [=]].
Qed.

Lemma X5_turn_needs_its_keys_witness :
  process_user_input sample_env "hello" (World empty_session ∅ [])
    = (World empty_session ∅ [], Raises (AttributeError "messages")) /\
  (let run := process_user_input sample_env "hello" first_visit in
   (run.2 = Returns tt /\
    assistant_typing (session_state run.1) = Some false) \/
   (exists e,
      run.2 = Raises e /\
      is_Exception e = false /\
      chat_stage (session_state first_visit)
        = Some "collecting_requirements" /\
      50 < len "hello" /\
      run_chat_planning_agent sample_env "hello" = Raises e /\
      assistant_typing (session_state run.1) = Some true)).
Proof.
  destruct (X5_turn_needs_its_keys sample_env "hello"
              (World empty_session ∅ [])) as (H & _).
  destruct (X5_turn_needs_its_keys sample_env "hello" first_visit)
    as (_ & _ & H').
  split.
  - apply H. reflexivity.
  - apply H'; vm_compute; eauto.
Defined.

(** X6. A stage that is none of the four names is not reported: the
    call appends the user's text, gives no reply, switches the typing
    indicator off and returns; the stage stays what it was and nothing
    else changes. *)
Theorem X6_unknown_stage_no_reply E user_input w msgs stage :
  messages (session_state w) = Some msgs ->
  chat_stage (session_state w) = Some stage ->
  stage ∉ stages ->
  process_user_input E user_input w =
    (with_session
       (set_assistant_typing false
          (set_assistant_typing true
             (set_messages (msgs ++ [Message "user" user_input])
                (session_state w)))) w,
     Returns tt).
Proof.
  intros Hm Hs Hnot.
  destruct w as [ss fs cs]. destruct ss as [m cp cg gp st ty pr].
  simpl in Hm, Hs. subst m st.
  unfold process_user_input, add_message, bind, getattr, setattr, ret. simpl.
  assert (Hne : forall name, name ∈ stages -> String.eqb stage name = false).
  { intros name Hin. apply String.eqb_neq. intros ->. exact (Hnot Hin). }
  rewrite !Hne by (unfold stages; repeat constructor). reflexivity.
Qed.

Lemma X6_unknown_stage_no_reply_witness :
  let w := with_session (set_chat_stage "done" (session_state first_visit))
             first_visit in
  process_user_input sample_env "hello" w =
    (with_session
       (set_assistant_typing false
          (set_assistant_typing true
             (set_messages ([] ++ [Message "user" "hello"])
                (session_state w)))) w,
     Returns tt).
Proof.
  intros w.
  apply (X6_unknown_stage_no_reply sample_env "hello" w [] "done").
  - reflexivity.
  - reflexivity.
  - unfold stages. intros H. set_unfold in H.
    destruct H as [H | [H | [H | [H | []]]]]; discriminate H.
Defined.

(** ** What is drawn *)

Lemma draw_messages_eq (opened : list element) msgs :
  foldl (fun out message => out ++ [Markdown (message_html message) true])
    opened msgs
  = opened ++ map (fun message => Markdown (message_html message) true) msgs.
Proof.
  revert opened. induction msgs as [|m msgs IH]; intros opened; simpl.
  - rewrite app_nil_r. reflexivity.
  - rewrite IH, <- app_assoc. reflexivity.
Qed.

(** X7. The typing indicator is drawn only after a turn that did not
    return. From a reachable world, after any call of
    [process_user_input], [display_chat_messages] returns and draws the
    opening of the container, one block per message in the order of the
    list, and the closing; between the last message and the closing it
    draws the typing indicator exactly when the call ended with an
    exception. A turn that returns has switched the indicator on and off
    again before anything is drawn, so no user sees it during a turn. *)
Theorem X7_typing_indicator_after_turn init w E user_input :
  keeps_chat_keys init -> reachable init w ->
  let run := process_user_input E user_input w in
  exists msgs,
    messages (session_state run.1) = Some msgs /\
    display_chat_messages (session_state run.1) =
      (Markdown chat_container_open true ::
       map (fun message => Markdown (message_html message) true) msgs
       ++ match run.2 with
          | Returns _ => []
          | Raises _ => [Markdown typing_indicator_html true]
          end
       ++ [Markdown "</div>" true],
       Returns tt).
Proof.
  intros Hk Hr run. subst run.
  pose proof (reachable_ok _ _ Hk (reachable_turn _ _ E user_input Hr)) as Hok'.
  destruct (ok_messages _ Hok') as [msgs' Hm']. exists msgs'.
  split; [exact Hm'|].
  pose proof (process_user_input_outcome E user_input w) as H.
  pose proof (reachable_ok _ _ Hk Hr) as Hok.
  destruct (ok_messages _ Hok) as [msgs Hm].
  destruct (ok_stage _ Hok) as (s & Hs & _).
  rewrite Hm, Hs in H. simpl in H.
  unfold display_chat_messages. rewrite Hm', draw_messages_eq.
  destruct H as [[-> ->]|(e & -> & _ & _ & _ & _ & ->)]; reflexivity.
Qed.

Lemma X7_typing_indicator_after_turn_witness :
  let run :=
    process_user_input cancelled_env sample_requirements collecting_world in
  exists msgs,
    messages (session_state run.1) = Some msgs /\
    display_chat_messages (session_state run.1) =
      (Markdown chat_container_open true ::
       map (fun message => Markdown (message_html message) true) msgs
       ++ [Markdown typing_indicator_html true]
       ++ [Markdown "</div>" true],
       Returns tt).
Proof.
  intros run.
  destruct (X7_typing_indicator_after_turn sample_init collecting_world
              cancelled_env sample_requirements sample_init_keeps
              collecting_world_reachable) as (msgs & Hm & Hd).
  exists msgs. split; [exact Hm|].
  assert (Hr : run.2 = Raises (BaseException "CancelledError" ""))
    by (vm_compute; reflexivity).
  subst run. rewrite Hr in Hd. exact Hd.
Defined.

(** X8. In every reachable world [render_chat_interface] draws, after
    its two headings and the messages, the download button exactly when
    the code-generated flag is set and the command hint exactly when the
    stage is planning; it never draws both, and drawing does not raise. *)
Theorem X8_hint_or_download init w :
  keeps_chat_keys init -> reachable init w ->
  exists shown download hint,
    display_chat_messages (session_state w) = (shown, Returns tt) /\
    download_button w = (download, Returns tt) /\
    command_hint w = (hint, Returns tt) /\
    render_chat_view w =
      ([Markdown "### 💬 AI Coding Assistant" false;
        Markdown
          "Describe your coding project and I'll help you generate the implementation!"
          false] ++ shown ++ download ++ hint, Returns tt) /\
    (download = [] \/ hint = []) /\
    (hint <> [] <-> chat_stage (session_state w) = Some "planning") /\
    (download <> [] <-> code_generated (session_state w) = Some true).
Proof.
  intros Hk Hr.
  pose proof (reachable_ok _ _ Hk Hr) as Hok.
  destruct (ok_messages _ Hok) as [msgs Hm].
  destruct (ok_stage _ Hok) as (s & Hs & _).
  destruct (reachable_no_archive init w Hk Hr) as [Hg _].
  assert (Hshown : exists shown,
             display_chat_messages (session_state w) = (shown, Returns tt)).
  { unfold display_chat_messages. rewrite Hm. eauto. }
  destruct Hshown as [shown Hshown]. exists shown.
  assert (Hd : download_button w = ([], Returns tt))
    by (unfold download_button; rewrite Hg; reflexivity).
  assert (Hh : command_hint w =
               (if String.eqb s "planning"
                then [Markdown command_hint_html true] else [],
                Returns tt))
    by (unfold command_hint; rewrite Hs; reflexivity).
  eexists [], _.
  split; [exact Hshown|]. split; [exact Hd|]. split; [exact Hh|].
  split.
  { unfold render_chat_view, then_draw. rewrite Hshown, Hd, Hh. reflexivity. }
  split; [left; reflexivity|].
  rewrite Hs, Hg. split; [|split; congruence].
  destruct (String.eqb_spec s "planning") as [->|Hne]; split;
    congruence.
Qed.

Lemma X8_hint_or_download_witness :
  exists shown download hint,
    display_chat_messages (session_state planning_world)
      = (shown, Returns tt) /\
    download_button planning_world = (download, Returns tt) /\
    command_hint planning_world = (hint, Returns tt) /\
    render_chat_view planning_world =
      ([Markdown "### 💬 AI Coding Assistant" false;
        Markdown
          "Describe your coding project and I'll help you generate the implementation!"
          false] ++ shown ++ download ++ hint, Returns tt) /\
    (download = [] \/ hint = []) /\
    (hint <> [] <-> chat_stage (session_state planning_world) = Some "planning")
    /\
    (download <> [] <->
     code_generated (session_state planning_world) = Some true).
Proof.
  apply (X8_hint_or_download sample_init planning_world).
  - exact sample_init_keeps.
  - exact planning_world_reachable.
Defined.

(** ** The command, padded and in any case *)

Lemma lstrip_eq c1 s1 :
  lstrip (String c1 s1) =
    if isspace1 c1 then lstrip s1
    else
      match s1 with
      | EmptyString => String c1 s1
      | String c2 s2 =>
          if isspace2 c1 c2 then lstrip s2
          else
            match s2 with
            | EmptyString => String c1 s1
            | String c3 s3 =>
                if isspace3 c1 c2 c3 then lstrip s3 else String c1 s1
            end
      end.
Proof. destruct s1 as [|c2 [|c3 s3]]; reflexivity. Qed.

Lemma rstrip_eq c s :
  rstrip (String c s) =
    match lstrip (String c s) with
    | EmptyString => EmptyString
    | String _ _ => String c (rstrip s)
    end.
Proof. reflexivity. Qed.

Lemma lstrip_app_blank_bounded n a s :
  String.length a <= n -> lstrip a = "" -> lstrip (a +:+ s) = lstrip s.
Proof.
  revert a. induction n as [|n IH]; intros a Hn Ha.
  - destruct a; [reflexivity|simpl in Hn; lia].
  - destruct a as [|c1 s1]; [reflexivity|].
    change (String c1 s1 +:+ s) with (String c1 (s1 +:+ s)).
    rewrite lstrip_eq in Ha |- *.
    change (String.length (String c1 s1)) with (S (String.length s1)) in Hn.
    destruct (isspace1 c1); [apply IH; [lia|exact Ha]|].
    destruct s1 as [|c2 s2]; [discriminate Ha|].
    change (String c2 s2 +:+ s) with (String c2 (s2 +:+ s)).
    change (String.length (String c2 s2)) with (S (String.length s2)) in Hn.
    cbv beta iota in Ha |- *.
    destruct (isspace2 c1 c2); [apply IH; [lia|exact Ha]|].
    destruct s2 as [|c3 s3]; [discriminate Ha|].
    change (String c3 s3 +:+ s) with (String c3 (s3 +:+ s)).
    change (String.length (String c3 s3)) with (S (String.length s3)) in Hn.
    cbv beta iota in Ha |- *.
    destruct (isspace3 c1 c2 c3); [apply IH; [lia|exact Ha]|].
    discriminate Ha.
Qed.

(** Whitespace in front of a text is stripped with it. *)
Lemma lstrip_app_blank a s : lstrip a = "" -> lstrip (a +:+ s) = lstrip s.
Proof. apply (lstrip_app_blank_bounded (String.length a)). lia. Qed.

Lemma rstrip_blank b : lstrip b = "" -> rstrip b = "".
Proof.
  destruct b as [|c b]; [reflexivity|]. rewrite rstrip_eq. intros ->.
  reflexivity.
Qed.

(** A character of one byte that is no whitespace stays where it is. *)
Lemma isspace_plain c :
  (nat_of_ascii c <? 128) = true ->
  (forall c2, isspace2 c c2 = false) /\
  (forall c2 c3, isspace3 c c2 c3 = false).
Proof.
  intros H. apply Nat.ltb_lt in H. unfold isspace2, isspace3. split.
  - intros c2. destruct (Nat.eqb_spec (nat_of_ascii c) 194); [lia|reflexivity].
  - intros c2 c3.
    destruct (Nat.eqb_spec (nat_of_ascii c) 225); [lia|].
    destruct (Nat.eqb_spec (nat_of_ascii c) 226); [lia|].
    destruct (Nat.eqb_spec (nat_of_ascii c) 227); [lia|]. reflexivity.
Qed.

Lemma lstrip_plain c s :
  (nat_of_ascii c <? 128) = true -> isspace1 c = false ->
  lstrip (String c s) = String c s.
Proof.
  intros Ha Hs. destruct (isspace_plain c Ha) as [H2 H3].
  rewrite lstrip_eq, Hs. destruct s as [|c2 [|c3 s3]]; try reflexivity.
  - rewrite H2. reflexivity.
  - rewrite H2, H3. reflexivity.
Qed.

Lemma rstrip_plain c s :
  (nat_of_ascii c <? 128) = true -> isspace1 c = false ->
  rstrip (String c s) = String c (rstrip s).
Proof.
  intros Ha Hs. rewrite rstrip_eq, (lstrip_plain c s Ha Hs). reflexivity.
Qed.

Lemma isspace1_lower_ascii c : isspace1 (lower_ascii c) = isspace1 c.
Proof. destruct c as [[] [] [] [] [] [] [] []]; reflexivity. Qed.

(** The texts that [lower] takes to "/code" are the 16 ways of writing
    it in upper and lower case letters: five characters of one byte,
    none of them whitespace. *)
Lemma command_letters command :
  isascii command = true -> map_chars lower_ascii command = "/code" ->
  exists c1 c2 c3 c4 c5,
    command =
      String c1 (String c2 (String c3 (String c4 (String c5 "")))) /\
    Forall (fun c => (nat_of_ascii c <? 128) = true /\ isspace1 c = false)
      [c1; c2; c3; c4; c5].
Proof.
  intros Ha Hl.
  destruct command as [|c1 [|c2 [|c3 [|c4 [|c5 [|c6 rest]]]]]];
    try discriminate Hl.
  exists c1, c2, c3, c4, c5. split; [reflexivity|].
  simpl in Ha. rewrite !andb_true_iff in Ha.
  destruct Ha as (A1 & A2 & A3 & A4 & A5 & _).
  injection Hl as L1 L2 L3 L4 L5.
  repeat constructor; try assumption;
    rewrite <- isspace1_lower_ascii;
    rewrite ?L1, ?L2, ?L3, ?L4, ?L5; reflexivity.
Qed.

(** X9. The command is recognised whatever the case of its letters
    and whatever whitespace surrounds it, the whitespace of Unicode
    included. In a reachable world in the planning stage, an input made
    of whitespace, one of the ways of writing "/code" in upper and lower
    case ASCII letters, and whitespace again is stripped to the command
    as written, starts the code generation and moves the stage to
    generating. *)
Theorem X9_command_padded_any_case init w E before command after :
  keeps_chat_keys init -> reachable init w ->
  chat_stage (session_state w) = Some "planning" ->
  lstrip before = "" -> lstrip after = "" ->
  isascii command = true -> lower (unicode_lower E) command = "/code" ->
  let user_input := before +:+ command +:+ after in
  let w' := (process_user_input E user_input w).1 in
  strip user_input = command /\
  chat_stage (session_state w') = Some "generating" /\
  engine_calls w' =
    engine_calls w ++
    [Call_execute_chat_based_planning_pipeline (requirements_of w) true].
Proof.
  intros Hk Hr Hs Hb Ha Hascii Hc user_input w'.
  assert (Hstrip : strip user_input = command).
  { unfold lower in Hc. rewrite Hascii in Hc.
    destruct (command_letters command Hascii Hc)
      as (c1 & c2 & c3 & c4 & c5 & -> & Hplain).
    repeat match goal with
      | H : Forall _ (_ :: _) |- _ =>
          apply Forall_cons in H; destruct H as [[? ?] H]
      end.
    unfold strip, user_input. rewrite (lstrip_app_blank before _ Hb).
    change (?a +:+ after) with
      (String c1 (String c2 (String c3 (String c4 (String c5 after))))).
    rewrite lstrip_plain by assumption.
    rewrite !rstrip_plain by assumption.
    rewrite (rstrip_blank after Ha). reflexivity. }
  split; [exact Hstrip|].
  pose proof (reachable_turn_run init E user_input w Hk Hr) as Ht.
  subst w'.
  destruct (process_user_input E user_input w) as [w' r]. simpl in *.
  destruct Ht; try congruence; auto.
Qed.

Lemma X9_command_padded_any_case_witness :
  let user_input :=
    (String (ascii_of_nat 9) "　 ") +:+ "/CoDe"
    +:+ (String (ascii_of_nat 10) " ") in
  let w' := (process_user_input sample_env user_input planning_world).1 in
  strip user_input = "/CoDe" /\
  chat_stage (session_state w') = Some "generating" /\
  engine_calls w' =
    engine_calls planning_world ++
    [Call_execute_chat_based_planning_pipeline
       (requirements_of planning_world) true].
Proof.
  apply (X9_command_padded_any_case sample_init planning_world sample_env
           (String (ascii_of_nat 9) "　 ") "/CoDe"
           (String (ascii_of_nat 10) " ")).
  - exact sample_init_keeps.
  - exact planning_world_reachable.
  - vm_compute. reflexivity.
  - vm_compute. reflexivity.
  - vm_compute. reflexivity.
  - reflexivity.
  - reflexivity.
Defined.

(** ** Cutting the requirement text *)

Lemma len_app a b : len (a +:+ b) = len a + len b.
Proof.
  induction a as [|c a IH]; [reflexivity|].
  change (len (String c a +:+ b)) with
    (if is_continuation c then len (a +:+ b) else S (len (a +:+ b))).
  change (len (String c a)) with
    (if is_continuation c then len a else S (len a)).
  rewrite IH. destruct (is_continuation c); reflexivity.
Qed.

Lemma slice_chars_eq n c s :
  slice_chars n (String c s) =
    if is_continuation c then String c (slice_chars n s)
    else match n with
         | 0 => EmptyString
         | S n' => String c (slice_chars n' s)
         end.
Proof. destruct n; reflexivity. Qed.

Lemma len_eq c s :
  len (String c s) = if is_continuation c then len s else S (len s).
Proof. reflexivity. Qed.

Lemma slice_chars_all n s : len s <= n -> slice_chars n s = s.
Proof.
  revert n. induction s as [|c s IH]; intros n Hn.
  - destruct n; reflexivity.
  - rewrite slice_chars_eq. rewrite len_eq in Hn.
    destruct (is_continuation c).
    + rewrite IH by exact Hn. reflexivity.
    + destruct n as [|n]; [lia|]. rewrite IH by lia. reflexivity.
Qed.

Lemma len_slice_chars n s : len (slice_chars n s) = Nat.min n (len s).
Proof.
  revert n. induction s as [|c s IH]; intros n.
  - destruct n; reflexivity.
  - rewrite slice_chars_eq, len_eq. destruct (is_continuation c) eqn:Hc.
    + rewrite len_eq, Hc. apply IH.
    + destruct n as [|n]; [reflexivity|]. rewrite len_eq, Hc, IH.
      reflexivity.
Qed.

Lemma slice_chars_app a b :
  slice_chars (len a) (a +:+ b) = a +:+ slice_chars 0 b.
Proof.
  induction a as [|c a IH]; [reflexivity|].
  change (String c a +:+ b) with (String c (a +:+ b)).
  change (String c a +:+ slice_chars 0 b)
    with (String c (a +:+ slice_chars 0 b)).
  rewrite slice_chars_eq, len_eq.
  destruct (is_continuation c); rewrite IH; reflexivity.
Qed.

Lemma append_empty_r a : a +:+ "" = a.
Proof.
  induction a as [|c a IH]; [reflexivity|].
  change (String c (a +:+ "") = String c a). rewrite IH. reflexivity.
Qed.

(** X10. The fallback plan and the README read a bounded part of the
    requirement text, counted in characters, not in bytes. A text of at
    most 100 characters stands whole in the fallback plan and one of at
    most 200 characters whole in the README; what follows the 100th
    (200th) character changes nothing; and either text is longer than
    its template by at most 100 (200) characters. [more] is taken to
    start with a whole character, which [slice_chars 0 more] being
    empty says. *)
Theorem X10_requirements_cut user_requirements :
  (len user_requirements <= 100 ->
   fallback_plan user_requirements
     = fallback_plan_header +:+ user_requirements +:+ fallback_plan_footer) /\
  (len user_requirements <= 200 ->
   readme_md user_requirements
     = readme_header +:+ user_requirements +:+ readme_footer) /\
  (forall more,
     len user_requirements = 100 -> slice_chars 0 more = "" ->
     fallback_plan (user_requirements +:+ more)
       = fallback_plan user_requirements) /\
  (forall more,
     len user_requirements = 200 -> slice_chars 0 more = "" ->
     readme_md (user_requirements +:+ more) = readme_md user_requirements) /\
  len (fallback_plan user_requirements) <= len (fallback_plan "") + 100 /\
  len (readme_md user_requirements) <= len (readme_md "") + 200.
Proof.
  unfold fallback_plan, readme_md. repeat split.
  - intros H. rewrite slice_chars_all by exact H. reflexivity.
  - intros H. rewrite slice_chars_all by exact H. reflexivity.
  - intros more H Hm. rewrite <- H at 1. rewrite slice_chars_app, Hm.
    rewrite append_empty_r, slice_chars_all by lia. reflexivity.
  - intros more H Hm. rewrite <- H at 1. rewrite slice_chars_app, Hm.
    rewrite append_empty_r, slice_chars_all by lia. reflexivity.
  - rewrite !len_app, !len_slice_chars. change (len "") with 0. lia.
  - rewrite !len_app, !len_slice_chars. change (len "") with 0. lia.
Qed.

Lemma X10_requirements_cut_witness :
  let user_requirements := "Ein Wörterbuch für Gemüse: žluťoučký kůň" in
  String.length user_requirements = 49 /\ len user_requirements = 40 /\
  fallback_plan user_requirements
    = fallback_plan_header +:+ user_requirements +:+ fallback_plan_footer.
Proof.
  intros user_requirements.
  destruct (X10_requirements_cut user_requirements) as (H & _).
  split; [vm_compute; reflexivity|]. split; [vm_compute; reflexivity|].
  apply H. vm_compute. lia.
Defined.

(** ** Timestamps *)

Lemma two_digits_app n s :
  two_digits n +:+ s = String (digit (n / 10)) (String (digit n) s).
Proof. reflexivity. Qed.

Lemma digit_inj a b : digit a = digit b -> a mod 10 = b mod 10.
Proof.
  unfold digit. intros H. apply (f_equal nat_of_ascii) in H.
  pose proof (Nat.mod_upper_bound a 10 ltac:(lia)).
  pose proof (Nat.mod_upper_bound b 10 ltac:(lia)).
  rewrite !nat_ascii_embedding in H by lia. lia.
Qed.

Lemma two_digits_value a b :
  a < 100 -> b < 100 ->
  (a / 10) mod 10 = (b / 10) mod 10 -> a mod 10 = b mod 10 -> a = b.
Proof.
  intros Ha Hb H1 H0.
  pose proof (Nat.div_mod_eq a 10). pose proof (Nat.div_mod_eq b 10).
  assert (a / 10 < 10) by (apply Nat.Div0.div_lt_upper_bound; lia).
  assert (b / 10 < 10) by (apply Nat.Div0.div_lt_upper_bound; lia).
  rewrite !Nat.mod_small in H1 by assumption. lia.
Qed.

Lemma four_digits_value a b :
  a < 100 * 100 -> b < 100 * 100 ->
  (a / 100 / 10) mod 10 = (b / 100 / 10) mod 10 ->
  (a / 100) mod 10 = (b / 100) mod 10 ->
  (a / 10) mod 10 = (b / 10) mod 10 -> a mod 10 = b mod 10 -> a = b.
Proof.
  intros Ha Hb H3 H2 H1 H0.
  assert (Hq : a / 100 = b / 100).
  { apply two_digits_value; try assumption;
      apply Nat.Div0.div_lt_upper_bound; lia. }
  pose proof (Nat.div_mod_eq a 10). pose proof (Nat.div_mod_eq b 10).
  pose proof (Nat.div_mod_eq (a / 10) 10).
  pose proof (Nat.div_mod_eq (b / 10) 10).
  rewrite !Nat.Div0.div_div in *. change (10 * 10) with 100 in *. lia.
Qed.

Lemma strftime_inj d1 d2 :
  clock_reading d1 -> clock_reading d2 ->
  strftime_Ymd_HMS d1 = strftime_Ymd_HMS d2 -> d1 = d2.
Proof.
  intros (Hy1 & Hm1 & Hd1 & HH1 & HM1 & HS1) (Hy2 & Hm2 & Hd2 & HH2 & HM2 & HS2).
  unfold strftime_Ymd_HMS. rewrite !two_digits_app.
  change ("_" +:+ ?s) with (String "_" s).
  unfold two_digits at 1 2.
  intros H.
  injection H as Hy3 Hy2' Hy1' Hy0 Hmo1 Hmo0 Hda1 Hda0 Hh1 Hh0 Hmi1 Hmi0
    Hs1 Hs0.
  apply digit_inj in Hy3, Hy2', Hy1', Hy0, Hmo1, Hmo0, Hda1, Hda0, Hh1, Hh0,
    Hmi1, Hmi0, Hs1, Hs0.
  assert (year d1 = year d2) by (apply four_digits_value; lia || assumption).
  assert (month d1 = month d2) by (apply two_digits_value; lia || assumption).
  assert (day d1 = day d2) by (apply two_digits_value; lia || assumption).
  assert (hour d1 = hour d2) by (apply two_digits_value; lia || assumption).
  assert (minute d1 = minute d2) by (apply two_digits_value; lia || assumption).
  assert (second d1 = second d2) by (apply two_digits_value; lia || assumption).
  destruct d1, d2; simpl in *; congruence.
Qed.

Lemma append_inj_l a x y : a +:+ x = a +:+ y -> x = y.
Proof.
  induction a as [|c a IH]; intros H; [exact H|].
  apply IH. change (String c (a +:+ x) = String c (a +:+ y)) in H.
  congruence.
Qed.

Lemma append_inj_same_length x y s t :
  String.length x = String.length y -> x +:+ s = y +:+ t -> x = y.
Proof.
  revert y. induction x as [|c x IH]; intros [|c' y] Hlen H;
    try discriminate Hlen; [reflexivity|].
  change (String c (x +:+ s) = String c' (y +:+ t)) in H.
  injection Hlen as Hlen. f_equal; [congruence|].
  apply IH; [exact Hlen|congruence].
Qed.

Lemma length_strftime d : String.length (strftime_Ymd_HMS d) = 15.
Proof. reflexivity. Qed.

Lemma zip_path_at_inj d1 d2 :
  clock_reading d1 -> clock_reading d2 ->
  zip_path_at d1 = zip_path_at d2 -> d1 = d2.
Proof.
  intros H1 H2 H. rewrite !zip_path_at_eq in H.
  apply append_inj_l in H.
  apply append_inj_same_length in H; [|rewrite !length_strftime; reflexivity].
  exact (strftime_inj d1 d2 H1 H2 H).
Qed.

Lemma generate_code_success_run E w :
  (generate_code_from_plan E w).2 = Returns code_generated_response ->
  files (generate_code_from_plan E w).1 =
    <[zip_path_at (datetime_now E) := project_files (requirements_of w)]>
      (files w).
Proof.
  intros H. destruct (generate_code_from_plan E w) as [w' r] eqn:Hrun.
  simpl in *. subst r. apply (generate_code_success E w w' Hrun).
Qed.

(** X13. The timestamp in the file name has the resolution of a
    second. When the code is generated twice with success and the clock
    reads the same both times, the second archive takes the place of the
    first: one file is added. When the two readings differ, the paths
    differ and both archives are kept. *)
Theorem X13_timestamp_collisions E1 E2 w :
  let first := generate_code_from_plan E1 w in
  let second := generate_code_from_plan E2 first.1 in
  first.2 = Returns code_generated_response ->
  second.2 = Returns code_generated_response ->
  (datetime_now E1 = datetime_now E2 ->
   files second.1 =
     <[zip_path_at (datetime_now E2) := project_files (requirements_of w)]>
       (files w)) /\
  (clock_reading (datetime_now E1) -> clock_reading (datetime_now E2) ->
   datetime_now E1 <> datetime_now E2 ->
   zip_path_at (datetime_now E1) <> zip_path_at (datetime_now E2) /\
   files second.1 !! zip_path_at (datetime_now E1)
     = Some (project_files (requirements_of w)) /\
   files second.1 !! zip_path_at (datetime_now E2)
     = Some (project_files (requirements_of w))).
Proof.
  intros first second H1 H2. subst second.
  rewrite (generate_code_success_run E2 first.1 H2).
  subst first. rewrite (generate_code_success_run E1 w H1).
  rewrite (requirements_of_keeps w _ (generate_code_keeps_plan E1 w)).
  split.
  - intros ->. apply insert_insert_eq.
  - intros Hc1 Hc2 Hne.
    assert (Hpath : zip_path_at (datetime_now E1)
                    <> zip_path_at (datetime_now E2)).
    { intros H. exact (Hne (zip_path_at_inj _ _ Hc1 Hc2 H)). }
    split; [exact Hpath|]. split.
    + rewrite lookup_insert_ne by congruence. apply lookup_insert_eq.
    + apply lookup_insert_eq.
Qed.

Lemma X13_timestamp_collisions_witness :
  let first := generate_code_from_plan sample_env planning_world in
  let second := generate_code_from_plan sample_env first.1 in
  files second.1 =
    <[zip_path_at sample_now := project_files (requirements_of planning_world)]>
      (files planning_world).
Proof.
  destruct (X13_timestamp_collisions sample_env sample_env planning_world)
    as [H _].
  - vm_compute. reflexivity.
  - vm_compute. reflexivity.
  - apply H. reflexivity.
Defined.

(** ** Edge cases of the code generation *)



(** X12. A plan that is None or the empty text counts as no plan: the
    pipeline is then called with the fixed text "Generate code based on
    the technical plan", and on success the README is built from that
    text. *)
Theorem X12_empty_plan_uses_default E w :
  current_plan (session_state w) = Some None \/
  current_plan (session_state w) = Some (Some "") ->
  let run := generate_code_from_plan E w in
  engine_calls run.1 =
    engine_calls w ++
    [Call_execute_chat_based_planning_pipeline default_requirements true] /\
  (run.2 = Returns code_generated_response ->
   files run.1 =
     <[zip_path_at (datetime_now E) := project_files default_requirements]>
       (files w)).
Proof.
  intros Hp run.
  assert (Hreq : requirements_of w = default_requirements)
    by (unfold requirements_of; destruct Hp as [-> | ->]; reflexivity).
  split.
  - subst run. rewrite generate_code_from_plan_eq. simpl.
    destruct Hp as [-> | ->]; simpl;
      (destruct (execute_chat_based_planning_pipeline E _);
       [destruct (open_wb E _)|]); reflexivity.
  - intros Hok. subst run.
    destruct (generate_code_from_plan E w) as [w' r] eqn:Hrun.
    simpl in *. subst r.
    destruct (generate_code_success E w w' Hrun) as [Hf _].
    rewrite Hf, Hreq. reflexivity.
Qed.

Lemma X12_empty_plan_uses_default_witness :
  let run := generate_code_from_plan sample_env first_visit in
  engine_calls run.1 =
    engine_calls first_visit ++
    [Call_execute_chat_based_planning_pipeline default_requirements true] /\
  (run.2 = Returns code_generated_response ->
   files run.1 =
     <[zip_path_at (datetime_now sample_env)
         := project_files default_requirements]> (files first_visit)).
Proof.
  apply (X12_empty_plan_uses_default sample_env first_visit).
  left. vm_compute. reflexivity.
Defined.

(** ** The initialisation *)

Lemma initialize_fields init w :
  let ss := init (session_state w) in
  let ss' := session_state (initialize_chat_session_state init w).1 in
  messages ss' = Some (default [] (messages ss)) /\
  current_plan ss' = Some (default None (current_plan ss)) /\
  code_generated ss' = Some (default false (code_generated ss)) /\
  generated_code_path ss' = Some (default None (generated_code_path ss)) /\
  chat_stage ss' = Some (default "greeting" (chat_stage ss)) /\
  files (initialize_chat_session_state init w).1 = files w /\
  engine_calls (initialize_chat_session_state init w).1 = engine_calls w.
Proof.
  unfold initialize_chat_session_state, bind, if_not_in, setattr. simpl.
  destruct (init (session_state w)) as [m cp cg gp st ty pr].
  destruct m, cp, cg, gp, st; simpl; repeat split.
Qed.

(** X14. [initialize_chat_session_state] can be run at every script
    run. In any world, with a session handler that leaves the chat keys
    alone: afterwards the five chat keys are set; a key that was set
    keeps its value, whatever it is; files and engine calls are
    untouched; and running it a second time changes none of the chat
    keys. *)
Theorem X14_initialisation_is_idempotent init w :
  keeps_chat_keys init ->
  let w1 := (initialize_chat_session_state init w).1 in
  let w2 := (initialize_chat_session_state init w1).1 in
  (is_Some (messages (session_state w1)) /\
   is_Some (current_plan (session_state w1)) /\
   is_Some (code_generated (session_state w1)) /\
   is_Some (generated_code_path (session_state w1)) /\
   is_Some (chat_stage (session_state w1))) /\
  (forall v, messages (session_state w) = Some v ->
             messages (session_state w1) = Some v) /\
  (forall v, current_plan (session_state w) = Some v ->
             current_plan (session_state w1) = Some v) /\
  (forall v, code_generated (session_state w) = Some v ->
             code_generated (session_state w1) = Some v) /\
  (forall v, generated_code_path (session_state w) = Some v ->
             generated_code_path (session_state w1) = Some v) /\
  (forall v, chat_stage (session_state w) = Some v ->
             chat_stage (session_state w1) = Some v) /\
  files w1 = files w /\ engine_calls w1 = engine_calls w /\
  chat_keys (session_state w2) = chat_keys (session_state w1).
Proof.
  intros Hk w1 w2.
  destruct (initialize_fields init w) as (Hm & Hp & Hg & Hpath & Hs & Hf & Hc).
  destruct (initialize_fields init w1) as (Hm2 & Hp2 & Hg2 & Hpath2 & Hs2 & _).
  fold w1 in Hm, Hp, Hg, Hpath, Hs, Hf, Hc.
  fold w2 in Hm2, Hp2, Hg2, Hpath2, Hs2.
  pose proof (Hk (session_state w)) as [= Km Kp Kg Kpath Ks].
  pose proof (Hk (session_state w1)) as [= Km1 Kp1 Kg1 Kpath1 Ks1].
  rewrite Km, Kp, Kg, Kpath, Ks in *.
  rewrite Km1, Kp1, Kg1, Kpath1, Ks1 in *.
  split; [rewrite Hm, Hp, Hg, Hpath, Hs; eauto 10|].
  repeat split; try assumption.
  1-5: intros v Hv; rewrite Hv in *; assumption.
  unfold chat_keys.
  rewrite Hm2, Hp2, Hg2, Hpath2, Hs2, Hm, Hp, Hg, Hpath, Hs. reflexivity.
Qed.

Lemma X14_initialisation_is_idempotent_witness :
  let w1 := (initialize_chat_session_state sample_init planning_world).1 in
  chat_stage (session_state w1) = Some "planning".
Proof.
  destruct (X14_initialisation_is_idempotent sample_init planning_world)
    as (_ & _ & _ & _ & _ & H & _).
  - exact sample_init_keeps.
  - apply H. vm_compute. reflexivity.
Defined.

(** ** Runs of the page script *)

Lemma visited_reachable init w :
  keeps_chat_keys init -> visited init w -> reachable init w.
Proof.
  intros Hk Hv. induction Hv as [fs E f|w E f _ IH].
  - apply chat_main_layout_reachable; [exact Hk|left; eauto].
  - apply chat_main_layout_reachable; [exact Hk|right; exact IH].
Qed.

(** In a reachable world no archive is recorded, so what is left of
    [render_chat_interface] is the form. *)
Lemma render_chat_interface_run init E f w :
  keeps_chat_keys init -> reachable init w ->
  render_chat_interface E f w =
    if submit_button f && truthy (user_input_area f)
    then (process_user_input E (user_input_area f) ;;
          @raise unit RerunException) w
    else (w, Returns tt).
Proof.
  intros Hk Hr. destruct (reachable_no_archive init w Hk Hr) as [Hg _].
  pose proof (reachable_ok _ _ Hk Hr) as Hok.
  destruct (ok_messages _ Hok) as [msgs Hm].
  destruct (ok_stage _ Hok) as (s & Hs & _).
  unfold render_chat_interface. unfold bind at 1. unfold getattr at 1.
  rewrite Hm. cbv beta iota. unfold bind at 1. unfold getattr at 1.
  rewrite Hg. cbv beta iota. unfold bind at 1. unfold ret at 1.
  cbv beta iota. unfold bind at 1. unfold getattr at 1.
  rewrite Hs. cbv beta iota.
  destruct (submit_button f && truthy (user_input_area f)); reflexivity.
Qed.

(** A run of the script, from a fresh session or a reachable world:
    initialisation and greeting return, and the form does the rest. *)
Lemma chat_main_layout_run init E f w :
  keeps_chat_keys init ->
  (exists fs, w = World empty_session fs []) \/ reachable init w ->
  let w2 :=
    (show_initial_greeting (initialize_chat_session_state init w).1).1 in
  reachable init w2 /\
  chat_main_layout init E f w =
    if submit_button f && truthy (user_input_area f)
    then (process_user_input E (user_input_area f) ;;
          @raise unit RerunException) w2
    else (w2, Returns tt).
Proof.
  intros Hk Hw w2.
  assert (Hr1 : reachable init (initialize_chat_session_state init w).1).
  { destruct Hw as [[fs ->]|Hr]; [apply reachable_first_visit|].
    apply reachable_rerun, Hr. }
  assert (Hr2 : reachable init w2) by (apply reachable_greeting, Hr1).
  split; [exact Hr2|].
  rewrite <- (render_chat_interface_run init E f w2 Hk Hr2).
  pose proof (initialize_returns init w) as Hret.
  unfold chat_main_layout, bind at 1. subst w2.
  destruct (initialize_chat_session_state init w) as [w1 r1].
  simpl in Hr1, Hret |- *. subst r1.
  destruct (ok_messages _ (reachable_ok _ _ Hk Hr1)) as [msgs Hm].
  unfold bind at 1. rewrite (show_initial_greeting_eq _ _ Hm). reflexivity.
Qed.

Lemma turn_then_rerun E user_input w :
  (process_user_input E user_input ;; @raise unit RerunException) w =
    ((process_user_input E user_input w).1,
     match (process_user_input E user_input w).2 with
     | Returns _ => Raises RerunException
     | Raises e => Raises e
     end).
Proof.
  unfold bind, raise.
  destruct (process_user_input E user_input w) as [w' [[]|e]]; reflexivity.
Qed.

(** X15. How a run of the page script ends, from a fresh session or
    from the world a previous run ended in, whatever the engine, the
    clock and the file store answer. Without a submission (Send not
    pressed, or pressed on an empty text) [chat_main_layout] returns.
    With one, the turn is processed and [st.rerun()] ends the run with
    its RerunException, which is how Streamlit starts the next run; only
    when the planning agent raised an exception that is no instance of
    [Exception] does that exception end the run instead. No run ends in
    an AttributeError for a missing key or in a FileNotFoundError for the
    archive. *)
Theorem X15_script_run_outcome init E f w :
  keeps_chat_keys init ->
  (exists fs, w = World empty_session fs []) \/ visited init w ->
  let run := chat_main_layout init E f w in
  (submit_button f && truthy (user_input_area f) = false ->
   run.2 = Returns tt) /\
  (submit_button f && truthy (user_input_area f) = true ->
   run.2 = Raises RerunException \/
   exists e,
     run.2 = Raises e /\ is_Exception e = false /\
     run_chat_planning_agent E (user_input_area f) = Raises e).
Proof.
  intros Hk Hw run. subst run.
  assert (Hw' : (exists fs, w = World empty_session fs []) \/ reachable init w).
  { destruct Hw as [Hw|Hv]; [left; exact Hw|].
    right. apply visited_reachable; assumption. }
  destruct (chat_main_layout_run init E f w Hk Hw') as [Hr2 ->].
  destruct (submit_button f && truthy (user_input_area f)).
  - split; [discriminate|]. intros _. rewrite turn_then_rerun. simpl.
    pose proof (reachable_turn_run init E (user_input_area f) _ Hk Hr2) as Ht.
    destruct (process_user_input E (user_input_area f) _) as [w' [[]|e]];
      simpl in *; [left; reflexivity|].
    right. exists e. apply turn_raises in Ht. tauto.
  - split; [reflexivity|discriminate].
Qed.

Lemma X15_script_run_outcome_witness :
  let submitted :=
    {| submit_button := true; user_input_area := sample_requirements |} in
  let idle := {| submit_button := false; user_input_area := "" |} in
  (chat_main_layout sample_init failing_env idle
     (World empty_session ∅ [])).2 = Returns tt /\
  ((chat_main_layout sample_init failing_env submitted
      (World empty_session ∅ [])).2 = Raises RerunException \/
   exists e,
     (chat_main_layout sample_init failing_env submitted
        (World empty_session ∅ [])).2 = Raises e /\
     is_Exception e = false /\
     run_chat_planning_agent failing_env sample_requirements = Raises e).
Proof.
  intros submitted idle.
  destruct (X15_script_run_outcome sample_init failing_env idle
              (World empty_session ∅ []) sample_init_keeps)
    as [Hidle _]; [left; exists ∅; reflexivity|].
  destruct (X15_script_run_outcome sample_init failing_env submitted
              (World empty_session ∅ []) sample_init_keeps)
    as [_ Hsub]; [left; exists ∅; reflexivity|].
  split; [apply Hidle; reflexivity|apply Hsub; reflexivity].
Defined.

Lemma transcript_snoc turns user_text reply :
  transcript (turns ++ [(user_text, reply)])
    = transcript turns
      ++ Message "user" user_text ::
         match reply with
         | Some text => [Message "assistant" text]
         | None => []
         end.
Proof.
  unfold transcript. rewrite flat_map_app. simpl. rewrite app_nil_r.
  reflexivity.
Qed.

Lemma truthy_nonempty s : truthy s = true -> s <> "".
Proof. destruct s; [discriminate|discriminate]. Qed.

(** What a turn adds to the messages: the user's text, and the reply
    unless the turn ended with an exception. *)
Lemma turn_appended E user_input w w' r :
  turn E user_input w w' r ->
  exists msgs reply,
    messages (session_state w) = Some msgs /\
    messages (session_state w') =
      Some (msgs ++ Message "user" user_input ::
                    match reply with
                    | Some text => [Message "assistant" text]
                    | None => []
                    end) /\
    (reply = None <-> exists e, r = Raises e).
Proof.
  intros Ht.
  destruct Ht;
    match goal with
    | H : appended _ _ _ ?reply |- _ =>
        destruct H as (msgs & Hm & Hm'); exists msgs, (Some reply)
    | H : appended_user _ _ _ |- _ =>
        destruct H as (msgs & Hm & Hm'); exists msgs, None
    end;
    (split; [exact Hm|]); (split; [exact Hm'|]);
    split; try discriminate; eauto; intros [e' [=]].
Qed.

(** The messages at the end of a script run, given those the greeting
    step left. *)
Lemma script_run_messages init E f w turns :
  keeps_chat_keys init ->
  (exists fs, w = World empty_session fs []) \/ reachable init w ->
  messages
    (session_state
       (show_initial_greeting (initialize_chat_session_state init w).1).1)
    = Some (transcript turns) ->
  Forall (fun turn => turn.1 <> "") turns ->
  exists turns',
    messages (session_state (chat_main_layout init E f w).1)
      = Some (transcript turns') /\
    Forall (fun turn => turn.1 <> "") turns'.
Proof.
  intros Hk Hw Hm Hall.
  destruct (chat_main_layout_run init E f w Hk Hw) as [Hr2 ->].
  destruct (submit_button f && truthy (user_input_area f)) eqn:Hsub;
    [|exists turns; split; assumption].
  apply andb_true_iff in Hsub as [_ Htext].
  rewrite turn_then_rerun. simpl.
  pose proof (reachable_turn_run init E (user_input_area f) _ Hk Hr2) as Ht.
  destruct (turn_appended _ _ _ _ _ Ht) as (msgs & reply & Hm0 & Hm1 & _).
  exists (turns ++ [(user_input_area f, reply)]). split.
  - rewrite Hm1, transcript_snoc. congruence.
  - apply Forall_app. split; [exact Hall|].
    constructor; [exact (truthy_nonempty _ Htext)|constructor].
Qed.

Lemma visited_transcript init w :
  keeps_chat_keys init -> visited init w ->
  exists turns,
    messages (session_state w) = Some (transcript turns) /\
    Forall (fun turn => turn.1 <> "") turns.
Proof.
  intros Hk Hv. induction Hv as [fs E f|w E f Hv IH].
  - apply (script_run_messages init E f _ []);
      [exact Hk|left; eauto| |constructor].
    destruct (initialize_fields init (World empty_session fs []))
      as (Hm & _).
    pose proof (Hk empty_session) as [= Km _ _ _ _].
    simpl in Hm. rewrite Km in Hm. simpl in Hm.
    rewrite (show_initial_greeting_eq _ _ Hm). reflexivity.
  - destruct IH as (turns & Hm & Hall).
    pose proof (visited_reachable init w Hk Hv) as Hr.
    apply (script_run_messages init E f _ turns);
      [exact Hk|right; exact Hr| |exact Hall].
    rewrite initialize_again by eauto using reachable_ok. simpl.
    assert (Hm' : messages (session_state (with_session (init (session_state w)) w))
                  = Some (transcript turns)).
    { simpl. pose proof (Hk (session_state w)) as [= Km _ _ _ _].
      congruence. }
    rewrite (show_initial_greeting_eq _ _ Hm'). exact Hm'.
Qed.

(** X16. The message list at the end of every script run is a
    transcript: the greeting first, then for each submitted turn the
    user's text, followed by one assistant reply unless the turn was
    ended by an exception. No user text in it is empty. *)
Theorem X16_messages_form_a_transcript init w :
  keeps_chat_keys init -> visited init w ->
  exists turns : list (string * option string),
    messages (session_state w) = Some (transcript turns) /\
    Forall (fun turn => turn.1 <> "") turns.
Proof. exact (visited_transcript init w). Qed.

Lemma X16_messages_form_a_transcript_witness :
  exists turns,
    messages
      (session_state
         (chat_main_layout sample_init cancelled_env
            {| submit_button := true; user_input_area := sample_requirements |}
            (chat_main_layout sample_init sample_env
               {| submit_button := true; user_input_area := "hello" |}
               (World empty_session ∅ [])).1).1)
      = Some (transcript turns) /\
    Forall (fun turn => turn.1 <> "") turns.
Proof.
  apply (X16_messages_form_a_transcript sample_init).
  - exact sample_init_keeps.
  - apply visited_again, visited_first.
Defined.

(** X17. A script run without a submission changes nothing of the
    conversation. When Send was not pressed, or was pressed on an empty
    text area, a run that starts in the world a previous run ended in
    returns and leaves the chat keys (messages, plan, flag, path, stage),
    the files and the engine calls as they were: an empty text is not a
    turn. *)
Theorem X17_run_without_submission init E f w :
  keeps_chat_keys init -> visited init w ->
  submit_button f = false \/ user_input_area f = "" ->
  let run := chat_main_layout init E f w in
  run.2 = Returns tt /\
  chat_keys (session_state run.1) = chat_keys (session_state w) /\
  files run.1 = files w /\
  engine_calls run.1 = engine_calls w.
Proof.
  intros Hk Hv Hsub run. subst run.
  pose proof (visited_reachable init w Hk Hv) as Hr.
  destruct (chat_main_layout_run init E f w Hk (or_intror Hr)) as [_ ->].
  assert (Hno : submit_button f && truthy (user_input_area f) = false).
  { destruct Hsub as [-> | ->]; [reflexivity|apply andb_false_r]. }
  rewrite Hno.
  destruct (visited_transcript init w Hk Hv) as (turns & Hm & _).
  rewrite initialize_again by eauto using reachable_ok. simpl.
  pose proof (Hk (session_state w)) as Hkeys.
  assert (Hm' : messages
                  (session_state (with_session (init (session_state w)) w))
                = Some (transcript turns)).
  { simpl. injection Hkeys as Km _ _ _ _. congruence. }
  rewrite (show_initial_greeting_eq _ _ Hm').
  unfold transcript. cbv beta iota. simpl. auto.
Qed.

Lemma X17_run_without_submission_witness :
  let w := (chat_main_layout sample_init sample_env
              {| submit_button := true; user_input_area := "hello" |}
              (World empty_session ∅ [])).1 in
  let run := chat_main_layout sample_init sample_env
               {| submit_button := true; user_input_area := "" |} w in
  run.2 = Returns tt /\
  chat_keys (session_state run.1) = chat_keys (session_state w) /\
  files run.1 = files w /\
  engine_calls run.1 = engine_calls w.
Proof.
  intros w.
  apply (X17_run_without_submission sample_init).
  - exact sample_init_keeps.
  - apply visited_first.
  - right. reflexivity.
Defined.

(** ** The start of the application *)

Lemma endswith_sep_none s : rfind_sep s = (-1)%Z -> endswith_sep s = false.
Proof.
  induction s as [|c s IH]; [reflexivity|]. intros H.
  apply rfind_sep_cons in H as [Hc Hs].
  destruct s as [|c' s]; [exact Hc|exact (IH Hs)].
Qed.

Lemma endswith_sep_app a b :
  b <> "" -> endswith_sep (a +:+ b) = endswith_sep b.
Proof.
  intros Hb. induction a as [|c a IH]; [reflexivity|].
  change (String c a +:+ b) with (String c (a +:+ b)).
  destruct (a +:+ b) as [|c' s] eqn:Hab.
  - destruct a; [change (b = "") in Hab; contradiction|discriminate Hab].
  - exact IH.
Qed.

Lemma str_app_assoc a b c : (a +:+ b) +:+ c = a +:+ (b +:+ c).
Proof.
  induction a as [|x a IH]; [reflexivity|].
  change (String x ((a +:+ b) +:+ c) = String x (a +:+ (b +:+ c))).
  rewrite IH. reflexivity.
Qed.

(** The directory two levels above a script [root/package/script]. *)
Lemma parent_dir_eq root package script :
  root <> "" -> endswith_sep root = false ->
  package <> "" -> rfind_sep package = (-1)%Z ->
  rfind_sep script = (-1)%Z ->
  os_path_dirname
    (os_path_dirname (root +:+ "/" +:+ package +:+ "/" +:+ script)) = root.
Proof.
  intros Hroot Hend Hpkg Hp Hs.
  change (root +:+ "/" +:+ package +:+ "/" +:+ script)
    with (root +:+ String "/" (package +:+ String "/" script)).
  assert (Hfile : root +:+ String "/" (package +:+ String "/" script)
                  = (root +:+ String "/" package) +:+ String "/" script).
  { rewrite str_app_assoc. reflexivity. }
  rewrite Hfile.
  rewrite (dirname_app_sep (root +:+ String "/" package) script).
  - apply dirname_app_sep; assumption.
  - destruct root; [congruence|discriminate].
  - rewrite endswith_sep_app by discriminate.
    destruct package as [|c p]; [congruence|].
    change (endswith_sep (String "/" (String c p)))
      with (endswith_sep (String c p)).
    apply endswith_sep_none, Hp.
  - exact Hs.
Qed.

(** X18. The start of [streamlit_app.py], for a script at
    root/package/script: the root directory is on [sys.path] afterwards,
    put at the front when it was missing and the path left as it was
    when it was there; bytecode writing is switched off in the
    environment. Running the start again, as every rerun of the script
    does, changes nothing more, and a path without duplicates stays
    so. *)
Theorem X18_sys_path_setup root package script p :
  root <> "" -> endswith_sep root = false ->
  package <> "" -> rfind_sep package = (-1)%Z ->
  rfind_sep script = (-1)%Z ->
  let file := root +:+ "/" +:+ package +:+ "/" +:+ script in
  let p' := streamlit_app_setup file p in
  root ∈ sys_path p' /\
  (root ∈ sys_path p -> sys_path p' = sys_path p) /\
  (root ∉ sys_path p -> sys_path p' = root :: sys_path p) /\
  environ p' !! "PYTHONDONTWRITEBYTECODE" = Some "1" /\
  streamlit_app_setup file p' = p' /\
  (NoDup (sys_path p) -> NoDup (sys_path p')).
Proof.
  intros Hroot Hend Hpkg Hp Hs file p'.
  pose proof (parent_dir_eq root package script Hroot Hend Hpkg Hp Hs)
    as Hdir.
  fold file in Hdir.
  assert (Hpath : sys_path p' =
                  if bool_decide (root ∈ sys_path p) then sys_path p
                  else root :: sys_path p).
  { subst p'. unfold streamlit_app_setup. simpl. rewrite Hdir. reflexivity. }
  assert (Hin : root ∈ sys_path p').
  { rewrite Hpath. case_bool_decide; [assumption|left]. }
  split; [exact Hin|].
  split; [intros H; rewrite Hpath, bool_decide_eq_true_2 by exact H;
          reflexivity|].
  split; [intros H; rewrite Hpath, bool_decide_eq_false_2 by exact H;
          reflexivity|].
  split; [subst p'; unfold streamlit_app_setup; simpl;
          apply lookup_insert_eq|].
  split.
  - unfold streamlit_app_setup at 1. rewrite Hdir.
    rewrite bool_decide_eq_true_2 by exact Hin.
    subst p'. unfold streamlit_app_setup at 1 3. simpl.
    rewrite insert_insert_eq. reflexivity.
  - intros Hnd. rewrite Hpath. case_bool_decide; [exact Hnd|].
    apply NoDup_cons. split; assumption.
Qed.

Lemma X18_sys_path_setup_witness :
  let p := {| environ := ∅; sys_path := ["/usr/lib/python3"] |} in
  let p' := streamlit_app_setup "/srv/deepcode/ui/streamlit_app.py" p in
  "/srv/deepcode" ∈ sys_path p' /\
  streamlit_app_setup "/srv/deepcode/ui/streamlit_app.py" p' = p'.
Proof.
  intros p.
  destruct (X18_sys_path_setup "/srv/deepcode" "ui" "streamlit_app.py" p)
    as (Hin & _ & _ & _ & Hidem & _).
  - discriminate.
  - reflexivity.
  - discriminate.
  - reflexivity.
  - reflexivity.
  - split; [exact Hin|exact Hidem].
Defined.

(** ** What the pipeline is given *)

(** X19. What the pipeline is given is the plan message of the chat,
    not the user's requirement text. In a reachable world in the
    generating stage the last two calls made are
    [run_chat_planning_agent] with the user's requirements and
    [execute_chat_based_planning_pipeline] with the stored plan, which is
    the whole formatted message: the planner's answer between the fixed
    header and footer, or the fallback plan around the first 100
    characters of those requirements. Before them there are only
    planning calls that ended their turn with an exception. *)
Theorem X19_pipeline_gets_plan_message init w :
  keeps_chat_keys init -> reachable init w ->
  chat_stage (session_state w) = Some "generating" ->
  exists interrupted requirements plan,
    current_plan (session_state w) = Some (Some plan) /\
    engine_calls w =
      map Call_run_chat_planning_agent interrupted
      ++ [Call_run_chat_planning_agent requirements;
          Call_execute_chat_based_planning_pipeline plan true] /\
    (plan = fallback_plan_header +:+ slice_chars 100 requirements
            +:+ fallback_plan_footer \/
     exists plan_result,
       plan = plan_header +:+ plan_result +:+ plan_footer).
Proof.
  intros Hk Hr Hs.
  destruct (reachable_conversation_state init w Hk Hr) as
    [Hs' _ _ _|interrupted Hs' _ _ _ _
    |interrupted req Hs' _ _ _ _ _
    |interrupted req _ _ Hc (plan & Hp & Ht & Hform) _ _];
    try congruence.
  assert (Hreq : requirements_of w = plan).
  { unfold requirements_of. rewrite Hp. simpl. rewrite Ht. reflexivity. }
  exists interrupted, req, plan. split; [exact Hp|]. split; [|exact Hform].
  rewrite Hc, Hreq, map_app, <- app_assoc. reflexivity.
Qed.

Lemma X19_pipeline_gets_plan_message_witness :
  exists interrupted requirements plan,
    current_plan (session_state generating_world) = Some (Some plan) /\
    engine_calls generating_world =
      map Call_run_chat_planning_agent interrupted
      ++ [Call_run_chat_planning_agent requirements;
          Call_execute_chat_based_planning_pipeline plan true] /\
    (plan = fallback_plan_header +:+ slice_chars 100 requirements
            +:+ fallback_plan_footer \/
     exists plan_result,
       plan = plan_header +:+ plan_result +:+ plan_footer).
Proof.
  apply (X19_pipeline_gets_plan_message sample_init generating_world).
  - exact sample_init_keeps.
  - exact generating_world_reachable.
  - vm_compute. reflexivity.
Defined.

(** ** Messages are drawn as they are *)

(** X20. [display_chat_messages] draws every message as it is. With
    the key [messages] set it returns, and the element drawn for the
    message at index i, right after the opening of the container, is the
    HTML block around its content, unchanged and with HTML allowed: the
    user block when the role is "user", the assistant block for every
    other role. Between the opening and the closing there is one element
    per message, and one more when the typing indicator is on. *)
Theorem X20_messages_drawn_verbatim ss msgs :
  messages ss = Some msgs ->
  (display_chat_messages ss).2 = Returns tt /\
  length (display_chat_messages ss).1
    = length msgs + 2
      + (if default false (assistant_typing ss) then 1 else 0) /\
  forall i m,
    msgs !! i = Some m ->
    (display_chat_messages ss).1 !! S i =
      Some (Markdown
              ("<div class=" +:+ dq
               +:+ (if String.eqb (role m) "user"
                    then "message user-message"
                    else "message assistant-message")
               +:+ dq +:+ ">" +:+ content m +:+ "</div>") true).
Proof.
  intros Hm. unfold display_chat_messages. rewrite Hm, draw_messages_eq.
  simpl. split; [reflexivity|]. split.
  - rewrite !length_app, length_map.
    destruct (default false (assistant_typing ss)); simpl; lia.
  - intros i m Hi.
    rewrite lookup_app_l by (rewrite length_map; eapply lookup_lt_Some, Hi).
    rewrite list_lookup_fmap, Hi. simpl. unfold message_html.
    destruct (String.eqb (role m) "user"); reflexivity.
Qed.

Lemma X20_messages_drawn_verbatim_witness :
  (display_chat_messages
     (set_messages [Message "user" "<b>hi</b>"] empty_session)).1 !! 1 =
    Some (Markdown
            ("<div class=" +:+ dq +:+ "message user-message" +:+ dq +:+ ">"
             +:+ "<b>hi</b>" +:+ "</div>") true).
Proof.
  destruct (X20_messages_drawn_verbatim
              (set_messages [Message "user" "<b>hi</b>"] empty_session)
              [Message "user" "<b>hi</b>"]) as (_ & _ & H).
  - reflexivity.
  - apply (H 0 (Message "user" "<b>hi</b>")). reflexivity.
Defined.
